(** * URL shortening service: a shallow embedding and its properties

    The development follows the layout of the repository:

    - [Secrets]   the random source behind [secrets.choice];
    - [Database]  [app/database.py]: the [urls] table, its UNIQUE column,
                  and the part of a SQLAlchemy session the handlers use;
    - [Utils]     [utils.py]: validation, normalisation, code generation;
    - [Schemas]   [app/schemas.py]: request and response bodies;
    - [Main]      [app/main.py]: the three request handlers and the
                  endpoints that wrap them.

    Python [str] is embedded as [string], Python [int] as [Z], a query
    result that may be absent as [option], a raised exception as the left
    summand of a [sum]. *)

From Stdlib Require Import ZArith List String Ascii Bool Arith Lia.
Import ListNotations.

Local Open Scope list_scope.
Local Open Scope string_scope.

(* ================================================================== *)
(** ** The random source *)
(* ================================================================== *)

Module Secrets.

(** What the operating system's generator will answer: the value of the
    n-th request for random bits.  Every statement below quantifies over
    it, that is, over every sequence of random choices. *)
Definition entropy := nat -> nat.

(** A computation that draws from the source: it reads the answers and
    moves a cursor over them. *)
Definition Rand (A : Type) : Type := entropy -> nat -> A * nat.

Definition ret {A} (a : A) : Rand A := fun _ pos => (a, pos).

Definition bind {A B} (m : Rand A) (k : A -> Rand B) : Rand B :=
  fun e pos => let (a, pos') := m e pos in k a e pos'.

(** [secrets.randbelow(n)]: a value in [0, n). *)
Definition randbelow (n : nat) : Rand nat :=
  fun e pos => (e pos mod n, S pos).

(** [secrets.choice(seq)] is [seq[randbelow(len(seq))]].  On an empty
    sequence Python raises IndexError; the only sequence the program
    passes is the 62-character alphabet, and the character returned in
    that unused case is NUL. *)
Definition choice (seq : string) : Rand ascii :=
  bind (randbelow (String.length seq))
       (fun i => ret (match String.get i seq with
                      | Some c => c
                      | None => Ascii.zero
                      end)).

End Secrets.

Declare Scope rand_scope.
Delimit Scope rand_scope with rand.
Notation "x <- m ;; k" := (Secrets.bind m (fun x => k))
  (at level 61, m at next level, right associativity) : rand_scope.

(* ================================================================== *)
(** ** app/database.py *)
(* ================================================================== *)

Module Database.

Definition datetime := Z.

(** A row of the [urls] table ([class URL(Base)]). *)
Record URL : Type := mkURL
  { id : Z;                 (* Column(Integer, primary_key=True) *)
    short_code : string;    (* Column(String, unique=True, nullable=False) *)
    original_url : string;  (* Column(String, nullable=False) *)
    created_at : datetime   (* Column(DateTime, default=datetime.utcnow) *)
  }.

(** [URL(short_code=..., original_url=...)]: an object not yet flushed;
    [id] and [created_at] are filled in by the INSERT. *)
Record Transient : Type := mkTransient
  { new_short_code : string;
    new_original_url : string }.

(** The part of a session the handlers see: the rows of the table and
    the objects added since the last commit or rollback. *)
Record Session : Type := mkSession
  { table : list URL;
    pending : list Transient }.

Inductive DBError : Type :=
| IntegrityError (column : string)   (* UNIQUE constraint failed *)
| OperationalError                   (* the database could not write *)
| InvalidRequestError.               (* refresh: the row is gone *)

(** [str(e)] in the handlers' messages.  The texts stand for the
    driver's and are shortened: SQLAlchemy's message also carries the
    SQL statement and its parameters.  No statement below depends on
    them beyond their being what the 500 detail is built from. *)
Definition str (e : DBError) : string :=
  match e with
  | IntegrityError column => "UNIQUE constraint failed: " ++ column
  | OperationalError => "disk I/O error"
  | InvalidRequestError => "Could not refresh instance"
  end.

(** [db.query(URL).filter(cond).first()]: the first row, in table order,
    that satisfies the condition.  String comparison in the conditions
    is [String.eqb], the BINARY collation of the String columns. *)
Definition query_first (cond : URL -> bool) (db : Session) : option URL :=
  find cond (table db).

(** [db.add(obj)]. *)
Definition add (obj : Transient) (db : Session) : Session :=
  {| table := table db; pending := (pending db ++ [obj])%list |}.

(** The rowid an INSERT assigns: one more than the largest in use. *)
Definition next_id (rows : list URL) : Z :=
  fold_right (fun r m => Z.max (id r) m) 0%Z rows + 1.

(** One INSERT.  The UNIQUE index on [short_code] refuses a row whose
    code is already in the table. *)
Definition insert (now : datetime) (obj : Transient) (rows : list URL)
  : DBError + list URL :=
  if existsb (fun r => short_code r =? new_short_code obj) rows
  then inl (IntegrityError "urls.short_code")
  else inr (rows ++ [ {| id := next_id rows;
                         short_code := new_short_code obj;
                         original_url := new_original_url obj;
                         created_at := now |} ])%list.

(** The flush of a commit: the pending objects are inserted in order. *)
Fixpoint flush (now : datetime) (objs : list Transient) (rows : list URL)
  : DBError + list URL :=
  match objs with
  | [] => inr rows
  | obj :: objs' =>
      match insert now obj rows with
      | inl e => inl e
      | inr rows' => flush now objs' rows'
      end
  end.

(** [db.commit()].  The transaction is atomic: when the flush or the
    write fails the exception is raised and the session is what it was
    ([inl]); [write_fails] is the environment's verdict on the write. *)
Definition commit (write_fails : bool) (now : datetime) (db : Session)
  : DBError + Session :=
  match flush now (pending db) (table db) with
  | inl e => inl e
  | inr rows =>
      if write_fails then inl OperationalError
      else inr {| table := rows; pending := [] |}
  end.

(** [db.rollback()]: the pending objects are dropped. *)
Definition rollback (db : Session) : Session :=
  {| table := table db; pending := [] |}.

(** [db.refresh(obj)]: the row the flush made of the object is read
    again.  The UNIQUE column names that row as well as its primary
    key does, and the transient object carries only the former. *)
Definition refresh (obj : Transient) (db : Session) : DBError + URL :=
  match find (fun r => short_code r =? new_short_code obj) (table db) with
  | Some r => inr r
  | None => inl InvalidRequestError
  end.

(** [SessionLocal()] on a table, and [db.close()] ([get_db]). *)
Definition SessionLocal (rows : list URL) : Session :=
  {| table := rows; pending := [] |}.

Definition close (db : Session) : list URL := table db.

End Database.

(* ================================================================== *)
(** ** utils.py *)
(* ================================================================== *)

Module Utils.
Import Secrets Database.
Local Open Scope rand_scope.

(** [url.startswith(('http://', 'https://'))]. *)
Definition has_scheme (url : string) : bool :=
  String.prefix "http://" url || String.prefix "https://" url.

Section Validation.
(** [validators.url] of the third-party [validators] package, with
    its falsy ValidationError result read as [false]. *)
Variable validators_url : string -> bool.

Definition validate_url (url : string) : bool :=
  match url with
  | EmptyString => false                       (* if not url *)
  | _ =>
      let url := if negb (has_scheme url) then "https://" ++ url else url in
      validators_url url
  end.
End Validation.

Definition normalize_url (url : string) : string :=
  if negb (has_scheme url) then "https://" ++ url else url.

Definition ascii_lowercase := "abcdefghijklmnopqrstuvwxyz".
Definition ascii_uppercase := "ABCDEFGHIJKLMNOPQRSTUVWXYZ".
Definition ascii_letters := ascii_lowercase ++ ascii_uppercase.
Definition digits := "0123456789".

Definition alphabet : string := ascii_letters ++ digits.

(** [''.join(secrets.choice(alphabet) for _ in range(n))]. *)
Fixpoint join_choices (n : nat) : Rand string :=
  match n with
  | O => ret ""
  | S n' =>
      c <- choice alphabet ;;
      s <- join_choices n' ;;
      ret (String c s)
  end.

(** [range(length)] is empty for a negative [length]. *)
Definition generate_short_code (length : Z) : Rand string :=
  join_choices (Z.to_nat length).

Definition default_length : Z := 6.
Definition default_max_attempts : Z := 10.

(** The [for _ in range(max_attempts)] loop with the statement after
    it. *)
Fixpoint attempts (db : Session) (length : Z) (n : nat) : Rand string :=
  match n with
  | O => generate_short_code (length + 2)
  | S n' =>
      code <- generate_short_code length ;;
      match query_first (fun r => short_code r =? code) db with
      | None => ret code
      | Some _ => attempts db length n'
      end
  end.

Definition get_unique_short_code (db : Session) (length max_attempts : Z)
  : Rand string :=
  attempts db length (Z.to_nat max_attempts).

End Utils.

(* ================================================================== *)
(** ** app/schemas.py *)
(* ================================================================== *)

Module Schemas.

(** [class URLShortenRequest(BaseModel)]: its one field is declared
    [Field(..., min_length=1)]. *)
Record URLShortenRequest : Type := mkRequest { url : string }.

(** Validation of a request body whose [url] is the given string: the
    model is built only when the field's constraint holds. *)
Definition model_validate (body_url : string) : option URLShortenRequest :=
  if (1 <=? String.length body_url)%nat
  then Some {| url := body_url |}
  else None.

(** [class URLShortenResponse(BaseModel)]. *)
Record URLShortenResponse : Type := mkResponse
  { short_url : string;
    original_url : string;
    short_code : string;
    created_at : option Database.datetime }.

End Schemas.

(* ================================================================== *)
(** ** Percent-encoding *)
(* ================================================================== *)

(** [urllib.parse.quote], which the framework's [RedirectResponse]
    applies to the URL it is given.  A string of this embedding is the
    sequence of the bytes of the Python string, and [quote] works byte by
    byte. *)
Module Urllib.

(** The bytes [quote] never encodes. *)
Definition always_safe : string :=
  "ABCDEFGHIJKLMNOPQRSTUVWXYZabcdefghijklmnopqrstuvwxyz0123456789_.-~".

Definition is_safe (safe : string) (c : ascii) : bool :=
  existsb (Ascii.eqb c) (list_ascii_of_string (always_safe ++ safe)).

Definition hex_digit (n : nat) : ascii :=
  match String.get n "0123456789ABCDEF" with
  | Some d => d
  | None => "0"%char
  end.

(** ['%{:02X}'.format(byte)]. *)
Definition percent (c : ascii) : string :=
  let n := nat_of_ascii c in
  String "%" (String (hex_digit (n / 16)) (String (hex_digit (n mod 16)) "")).

(** [quote(s, safe=safe)]. *)
Fixpoint quote (s : string) (safe : string) : string :=
  match s with
  | EmptyString => EmptyString
  | String c s' =>
      (if is_safe safe c then String c EmptyString else percent c)
      ++ quote s' safe
  end.

End Urllib.

(* ================================================================== *)
(** ** app/main.py *)
(* ================================================================== *)

Module Main.
Import Secrets Database Utils.

(** The Prometheus counters and the middleware that feeds them, the
    static files and the root page take no part in the three operations
    and are left out. *)

(** What a request finds around it: the [BASE_URL] variable, the
    answers the random source will give, the clock, and whether the
    database will fail to write. *)
Record Env : Type := mkEnv
  { BASE_URL : option string;
    urandom : entropy;
    utcnow : datetime;
    write_fails : bool }.

(** [os.getenv("BASE_URL", "http://localhost:8000")]. *)
Definition getenv_BASE_URL (env : Env) : string :=
  match BASE_URL env with
  | Some v => v
  | None => "http://localhost:8000"
  end.

(** What a request ends in.  [HTTPException] is the exception the
    handlers raise, which the framework renders as a [{detail}] body
    under its status code; [RequestValidationError] is the framework's
    answer (422) to a body that does not validate against the schema of
    the handler's parameter.  [RedirectResponse url status_code] is the
    call of the framework's constructor with these arguments; the header
    it sends is [location] below. *)
Inductive Response : Type :=
| JSONResponse (status_code : Z) (content : Schemas.URLShortenResponse)
| RedirectResponse (url : string) (status_code : Z)
| HTTPException (status_code : Z) (detail : string)
| RequestValidationError.

Definition HTTP_200_OK : Z := 200.
Definition HTTP_201_CREATED : Z := 201.
Definition HTTP_302_FOUND : Z := 302.
Definition HTTP_400_BAD_REQUEST : Z := 400.
Definition HTTP_404_NOT_FOUND : Z := 404.
Definition HTTP_422_UNPROCESSABLE_ENTITY : Z := 422.
Definition HTTP_500_INTERNAL_SERVER_ERROR : Z := 500.

Definition status (r : Response) : Z :=
  match r with
  | JSONResponse c _ => c
  | RedirectResponse _ c => c
  | HTTPException c _ => c
  | RequestValidationError => HTTP_422_UNPROCESSABLE_ENTITY
  end.

(** The [Location] header of a response.  The constructor of
    [RedirectResponse] sets it to
    [quote(str(url), safe=":/%#?=@[]!$&'()*+,;")]; the other responses of
    the handlers carry none. *)
Definition redirect_safe : string := ":/%#?=@[]!$&'()*+,;".

Definition location (r : Response) : option string :=
  match r with
  | RedirectResponse url _ => Some (Urllib.quote url redirect_safe)
  | _ => None
  end.

(** The response body built from a row, as all three places build it. *)
Definition response_of (env : Env) (r : URL) : Schemas.URLShortenResponse :=
  {| Schemas.short_url := getenv_BASE_URL env ++ "/" ++ short_code r;
     Schemas.original_url := original_url r;
     Schemas.short_code := short_code r;
     Schemas.created_at := Some (created_at r) |}.

(** The body of the second [try] of [shorten_url]: add, commit,
    refresh.  An exception comes with the session it was raised in. *)
Definition add_commit_refresh (env : Env) (db_url : Transient) (db : Session)
  : DBError * Session + URL * Session :=
  let db := add db_url db in
  match commit (write_fails env) (utcnow env) db with
  | inl e => inl (e, db)
  | inr db =>
      match refresh db_url db with
      | inl e => inl (e, db)
      | inr row => inr (row, db)
      end
  end.

Section Handlers.
Variable validators_url : string -> bool.

(** [POST /api/shorten], the handler.  [get_unique_short_code] raises
    nothing, so the [except] around its call has no case here. *)
Definition shorten_url (request : Schemas.URLShortenRequest)
           (env : Env) (db : Session) : Response * Session :=
  if negb (validate_url validators_url (Schemas.url request)) then
    (HTTPException HTTP_400_BAD_REQUEST
       "Invalid URL format. Please provide a valid URL (e.g., https://example.com)",
     db)
  else
    let normalized_url := normalize_url (Schemas.url request) in
    match query_first (fun r => original_url r =? normalized_url) db with
    | Some existing_url =>
        (JSONResponse HTTP_201_CREATED (response_of env existing_url), db)
    | None =>
        let short_code :=
          fst (get_unique_short_code db default_length default_max_attempts
                                     (urandom env) 0) in
        let db_url := {| new_short_code := short_code;
                         new_original_url := normalized_url |} in
        match add_commit_refresh env db_url db with
        | inl (e, db) =>
            (HTTPException HTTP_500_INTERNAL_SERVER_ERROR
               ("Failed to save URL: " ++ str e),
             rollback db)
        | inr (db_url, db) =>
            (JSONResponse HTTP_201_CREATED (response_of env db_url), db)
        end
    end.

(** [GET /{short_code}]. *)
Definition redirect_url (short_code : string) (db : Session)
  : Response * Session :=
  match query_first (fun r => Database.short_code r =? short_code) db with
  | None =>
      (HTTPException HTTP_404_NOT_FOUND
         ("Short code '" ++ short_code ++ "' not found"), db)
  | Some url_record =>
      (RedirectResponse (original_url url_record) HTTP_302_FOUND, db)
  end.

(** [GET /api/stats/{short_code}]; the route's default status is 200. *)
Definition get_url_stats (short_code : string) (env : Env) (db : Session)
  : Response * Session :=
  match query_first (fun r => Database.short_code r =? short_code) db with
  | None =>
      (HTTPException HTTP_404_NOT_FOUND
         ("Short code '" ++ short_code ++ "' not found"), db)
  | Some url_record =>
      (JSONResponse HTTP_200_OK (response_of env url_record), db)
  end.

(** [Depends(get_db)]: a session is opened for the request and closed
    when the handler is done, whatever it did. *)
Definition with_db (handler : Session -> Response * Session)
           (rows : list URL) : Response * list URL :=
  let (response, db) := handler (SessionLocal rows) in
  (response, close db).

(** The three operations as a client calls them, on the stored
    table.  The body of a create request is validated against
    [URLShortenRequest] before the handler runs. *)
Definition create_short_url (raw_url : string) (env : Env)
           (rows : list URL) : Response * list URL :=
  match Schemas.model_validate raw_url with
  | None => (RequestValidationError, rows)
  | Some request => with_db (shorten_url request env) rows
  end.

Definition redirect (short_code : string) (rows : list URL)
  : Response * list URL :=
  with_db (redirect_url short_code) rows.

Definition stats (short_code : string) (env : Env) (rows : list URL)
  : Response * list URL :=
  with_db (get_url_stats short_code env) rows.

(** Sequential runs of the service. *)
Inductive Op : Type :=
| Create (raw_url : string)
| Redirect (short_code : string)
| Stats (short_code : string).

Definition step (op : Op) (env : Env) (rows : list URL)
  : Response * list URL :=
  match op with
  | Create raw_url => create_short_url raw_url env rows
  | Redirect short_code => redirect short_code rows
  | Stats short_code => stats short_code env rows
  end.

(** The tables the service can be in: the empty one that [init_db]
    creates, and whatever a request leaves, in any environment. *)
Inductive reachable : list URL -> Prop :=
| reachable_init : reachable []
| reachable_step : forall op env rows,
    reachable rows -> reachable (snd (step op env rows)).

End Handlers.

End Main.

(* ================================================================== *)
(** ** The vocabulary of the statements *)
(* ================================================================== *)

Import Secrets Database Utils Main.

(** [s] starts with [p]. *)
Definition starts_with (p s : string) : Prop := exists rest, s = p ++ rest.

(** [sub] occurs in [s]. *)
Definition occurs_in (sub s : string) : Prop :=
  exists before after, s = before ++ sub ++ after.

(** a-z, A-Z, 0-9 by character code. *)
Definition is_alnum (c : ascii) : bool :=
  let n := nat_of_ascii c in
  ((97 <=? n)%nat && (n <=? 122)%nat)      (* a-z *)
  || ((65 <=? n)%nat && (n <=? 90)%nat)    (* A-Z *)
  || ((48 <=? n)%nat && (n <=? 57)%nat).   (* 0-9 *)

Fixpoint all_chars (p : ascii -> bool) (s : string) : bool :=
  match s with
  | EmptyString => true
  | String c s' => p c && all_chars p s'
  end.

(** [c] is one of the characters of [alphabet]. *)
Definition in_alphabet (c : ascii) : bool :=
  existsb (Ascii.eqb c) (list_ascii_of_string alphabet).

(** [code] is the [short_code] of a row of the session's table. *)
Definition in_store (db : Session) (code : string) : bool :=
  existsb (fun r => short_code r =? code) (table db).

(** The [i]-th candidate (from 0) of a run of [get_unique_short_code]
    that starts at cursor [pos]: every earlier call of
    [generate_short_code length] has drawn [length] characters. *)
Definition candidate (length : Z) (e : entropy) (pos i : nat) : string :=
  fst (generate_short_code length e (pos + i * Z.to_nat length)).

(** No two rows share a [short_code]. *)
Definition unique_codes (rows : list URL) : Prop :=
  NoDup (map short_code rows).

Definition has_code (code : string) (r : URL) : bool := short_code r =? code.
Definition has_url (url : string) (r : URL) : bool := original_url r =? url.

(** The row an INSERT makes of a transient object. *)
Definition new_row (now : datetime) (obj : Transient) (rows : list URL) : URL :=
  {| id := next_id rows;
     short_code := new_short_code obj;
     original_url := new_original_url obj;
     created_at := now |}.

Definition invalid_url_detail : string :=
  "Invalid URL format. Please provide a valid URL (e.g., https://example.com)".

(** The code [shorten_url] asks the generator for, on the stored table. *)
Definition assigned_code (env : Env) (rows : list URL) : string :=
  fst (get_unique_short_code (SessionLocal rows) default_length
                             default_max_attempts (urandom env) 0).

(** The object [shorten_url] hands to the session. *)
Definition db_url (raw_url : string) (env : Env) (rows : list URL) : Transient :=
  {| new_short_code := assigned_code env rows;
     new_original_url := normalize_url raw_url |}.

(** [db.add(db_url); db.commit()] of [shorten_url] on a fresh session. *)
Definition insert_attempt (raw_url : string) (env : Env) (rows : list URL)
  : DBError + Session :=
  commit (write_fails env) (utcnow env)
         (add (db_url raw_url env rows) (SessionLocal rows)).

Section Outcomes.
Variable validators_url : string -> bool.
Variables (raw_url : string) (env : Env) (rows : list URL).

(** The five ways a create request can end. *)
Inductive outcome : Response * list URL -> Prop :=
| unprocessable :
    raw_url = "" ->
    outcome (RequestValidationError, rows)
| rejected :
    raw_url <> "" ->
    validate_url validators_url raw_url = false ->
    outcome (HTTPException HTTP_400_BAD_REQUEST invalid_url_detail, rows)
| existing : forall r,
    validate_url validators_url raw_url = true ->
    find (has_url (normalize_url raw_url)) rows = Some r ->
    outcome (JSONResponse HTTP_201_CREATED (response_of env r), rows)
| failed : forall e,
    validate_url validators_url raw_url = true ->
    find (has_url (normalize_url raw_url)) rows = None ->
    insert_attempt raw_url env rows = inl e ->
    outcome (HTTPException HTTP_500_INTERNAL_SERVER_ERROR
               ("Failed to save URL: " ++ str e), rows)
| created :
    validate_url validators_url raw_url = true ->
    find (has_url (normalize_url raw_url)) rows = None ->
    existsb (has_code (assigned_code env rows)) rows = false ->
    write_fails env = false ->
    outcome (JSONResponse HTTP_201_CREATED
               (response_of env (new_row (utcnow env) (db_url raw_url env rows) rows)),
             (rows ++ [new_row (utcnow env) (db_url raw_url env rows) rows])%list).

End Outcomes.

(** The handlers are run below on a few requests.  [validators.url] is
    not part of the repository, so the runs fix its verdicts on the
    strings they meet: the listed URLs are well formed, and nothing else
    the runs submit is (in particular "https://not-a-valid-url", which
    the repository's [test_invalid_url] expects to be refused). *)
Module Sample.

Definition validators_url (u : string) : bool :=
  existsb (String.eqb u)
          [ "https://example.com/a"; "https://example.com/b";
            "https://example.com/c"; "https://example.com/x";
            "http://example.com/plain" ].

(** A random source that answers 0 to every request: every character
    chosen is the alphabet's first, "a". *)
Definition zeros : entropy := fun _ => 0.

(** A random source whose answers differ from one request to the next. *)
Definition sevens : entropy := fun n => n * 7.

Definition env (e : entropy) : Env :=
  {| BASE_URL := None; urandom := e; utcnow := 1700000000%Z;
     write_fails := false |}.

(** The table after [example.com/a] and then [example.com/b] were
    submitted under [zeros]: the first got "aaaaaa"; for the second all
    ten six-character candidates were "aaaaaa" again, and it got the
    eight-character fallback. *)
Definition rows1 : list URL :=
  snd (create_short_url validators_url "example.com/a" (env zeros) []).

Definition rows2 : list URL :=
  snd (create_short_url validators_url "example.com/b" (env zeros) rows1).

End Sample.


(* ================================================================== *)
(** ** The rest of app/main.py: sequences of requests and the metrics *)
(* ================================================================== *)

(** Requests served one after the other, each in its own environment;
    the table each one leaves is the table the next one finds. *)
Fixpoint serve (validators_url : string -> bool)
         (requests : list (Op * Env)) (rows : list URL) : list URL :=
  match requests with
  | [] => rows
  | (op, env) :: rest =>
      serve validators_url rest (snd (step validators_url op env rows))
  end.

(** The responses of a sequence of requests, in order. *)
Fixpoint serve_responses (validators_url : string -> bool)
         (requests : list (Op * Env)) (rows : list URL) : list Response :=
  match requests with
  | [] => []
  | (op, env) :: rest =>
      fst (step validators_url op env rows)
      :: serve_responses validators_url rest
                         (snd (step validators_url op env rows))
  end.

(** The verdicts of [Sample.validators_url], and one more well-formed
    URL, whose query holds braces. *)
Definition validators_url_braces (u : string) : bool :=
  Sample.validators_url u || (u =? "https://example.com/a?q={x}").

Module Metrics.

(** [endpoint[1:]]. *)
Definition tail (s : string) : string :=
  match s with
  | EmptyString => EmptyString
  | String _ s' => s'
  end.

(** [s.replace("/", "")]: every "/" is dropped. *)
Fixpoint remove_slashes (s : string) : string :=
  match s with
  | EmptyString => EmptyString
  | String c s' =>
      if Ascii.eqb c "/" then remove_slashes s'
      else String c (remove_slashes s')
  end.

(** [s.isalnum()]: at least one character, and all of them letters or
    digits; on the characters of this embedding, the ASCII ones. *)
Definition isalnum (s : string) : bool :=
  match s with
  | EmptyString => false
  | _ => all_chars is_alnum s
  end.

(** [s.split("/")]. *)
Fixpoint split_slash (s : string) : list string :=
  match s with
  | EmptyString => [EmptyString]
  | String c s' =>
      if Ascii.eqb c "/" then EmptyString :: split_slash s'
      else match split_slash s' with
           | piece :: pieces => String c piece :: pieces
           | [] => [String c EmptyString]
           end
  end.

(** The endpoint label of [metrics_middleware]: the path with its
    variable part removed. *)
Definition endpoint_label (path : string) : string :=
  if String.prefix "/api/stats/" path then "/api/stats/{code}"
  else if (1 <? String.length path)%nat
          && isalnum (remove_slashes (tail path))
          && (List.length (split_slash path) =? 2)%nat
       then "/{shortCode}"
       else path.

(** The label values under which [metrics_middleware] counts a request
    in [http_requests_total]: method, endpoint, status.  (The duration it
    also observes is a difference of floating-point clock readings and is
    not modelled.) *)
Definition request_labels (method path : string) (response : Response)
  : string * string * Z :=
  (method, endpoint_label path, status response).

(** The two counters the handlers increment themselves. *)
Record Counters : Type := mkCounters
  { url_shorten_requests : nat;
    url_redirect_requests : nat }.

(** [url_shorten_requests.inc()] and [url_redirect_requests.inc()]. *)
Definition inc_shorten (m : Counters) : Counters :=
  {| url_shorten_requests := S (url_shorten_requests m);
     url_redirect_requests := url_redirect_requests m |}.

Definition inc_redirect (m : Counters) : Counters :=
  {| url_shorten_requests := url_shorten_requests m;
     url_redirect_requests := S (url_redirect_requests m) |}.

Section CountedHandlers.
Variable validators_url : string -> bool.

(** [shorten_url] with the counter it increments before its last
    [return]. *)
Definition shorten_url_counted (request : Schemas.URLShortenRequest)
           (env : Env) (db : Session) (m : Counters)
  : Response * Session * Counters :=
  if negb (validate_url validators_url (Schemas.url request)) then
    (HTTPException HTTP_400_BAD_REQUEST
       "Invalid URL format. Please provide a valid URL (e.g., https://example.com)",
     db, m)
  else
    let normalized_url := normalize_url (Schemas.url request) in
    match query_first (fun r => original_url r =? normalized_url) db with
    | Some existing_url =>
        (JSONResponse HTTP_201_CREATED (response_of env existing_url), db, m)
    | None =>
        let short_code :=
          fst (get_unique_short_code db default_length default_max_attempts
                                     (urandom env) 0) in
        let db_url := {| new_short_code := short_code;
                         new_original_url := normalized_url |} in
        match add_commit_refresh env db_url db with
        | inl (e, db) =>
            (HTTPException HTTP_500_INTERNAL_SERVER_ERROR
               ("Failed to save URL: " ++ str e),
             rollback db, m)
        | inr (db_url, db) =>
            (JSONResponse HTTP_201_CREATED (response_of env db_url), db,
             inc_shorten m)
        end
    end.

(** [redirect_url] with the counter it increments before redirecting. *)
Definition redirect_url_counted (short_code : string) (db : Session)
           (m : Counters) : Response * Session * Counters :=
  match query_first (fun r => Database.short_code r =? short_code) db with
  | None =>
      (HTTPException HTTP_404_NOT_FOUND
         ("Short code '" ++ short_code ++ "' not found"), db, m)
  | Some url_record =>
      (RedirectResponse (original_url url_record) HTTP_302_FOUND, db,
       inc_redirect m)
  end.

(** One request against the stored table and the process's counters.
    [get_url_stats] touches no counter. *)
Definition step_counted (op : Op) (env : Env) (rows : list URL) (m : Counters)
  : Response * list URL * Counters :=
  match op with
  | Create raw_url =>
      match Schemas.model_validate raw_url with
      | None => (RequestValidationError, rows, m)
      | Some request =>
          let '(response, db, m) :=
            shorten_url_counted request env (SessionLocal rows) m in
          (response, close db, m)
      end
  | Redirect short_code =>
      let '(response, db, m) :=
        redirect_url_counted short_code (SessionLocal rows) m in
      (response, close db, m)
  | Stats short_code =>
      let (response, rows) := stats short_code env rows in
      (response, rows, m)
  end.

(** A sequence of requests: the responses in order, the table and the
    counters at the end. *)
Fixpoint serve_counted (requests : list (Op * Env)) (rows : list URL)
         (m : Counters) : list Response * list URL * Counters :=
  match requests with
  | [] => ([], rows, m)
  | (op, env) :: rest =>
      let '(response, rows, m) := step_counted op env rows m in
      let '(responses, rows, m) := serve_counted rest rows m in
      (response :: responses, rows, m)
  end.

End CountedHandlers.

End Metrics.

(** The position of a character in a string (its length when absent). *)
Fixpoint index_in (c : ascii) (s : string) : nat :=
  match s with
  | EmptyString => 0
  | String a s' => if Ascii.eqb a c then 0 else S (index_in c s')
  end.

(** A random source that makes the generator spell [code]: its [i]-th
    answer is the place in the alphabet of the [i]-th character. *)
Definition source_for (code : string) : entropy :=
  fun i => match String.get i code with
           | Some c => index_in c alphabet
           | None => 0
           end.

(** What every stored row satisfies. *)
Definition well_formed_row (V : string -> bool) (r : URL) : Prop :=
  has_scheme (original_url r) = true /\
  validate_url V (original_url r) = true /\
  all_chars in_alphabet (short_code r) = true /\
  (String.length (short_code r) = 6 \/ String.length (short_code r) = 8).

(** The responses with a given status code. *)
Definition count_status (code : Z) (responses : list Response) : nat :=
  List.length (filter (fun r => Z.eqb (status r) code) responses).

(* ================================================================== *)
(** ** Strings *)
(* ================================================================== *)

Lemma prefix_starts_with p : forall s,
  String.prefix p s = true <-> starts_with p s.
Proof.
  induction p as [|a p IH]; intros s; split.
  - intros _. exists s. reflexivity.
  - intros _. destruct s; reflexivity.
  - destruct s as [|b s]; simpl; [discriminate|].
    destruct (ascii_dec a b) as [->|]; [|discriminate].
    intros H. apply IH in H. destruct H as [rest ->].
    exists rest. reflexivity.
  - intros [rest ->]. simpl.
    destruct (ascii_dec a a) as [_|Hne]; [|now elim Hne].
    apply IH. exists rest. reflexivity.
Qed.

Lemma has_scheme_true url :
  has_scheme url = true <->
  starts_with "http://" url \/ starts_with "https://" url.
Proof.
  unfold has_scheme. rewrite orb_true_iff, !prefix_starts_with. tauto.
Qed.

Lemma has_scheme_false url :
  has_scheme url = false <->
  ~ starts_with "http://" url /\ ~ starts_with "https://" url.
Proof.
  rewrite <- not_true_iff_false, has_scheme_true. tauto.
Qed.

Lemma has_scheme_https url : has_scheme ("https://" ++ url) = true.
Proof. apply has_scheme_true. right. exists url. reflexivity. Qed.

Lemma has_scheme_normalize url : has_scheme (normalize_url url) = true.
Proof.
  unfold normalize_url. destruct (has_scheme url) eqn:E; simpl.
  - exact E.
  - apply has_scheme_https.
Qed.

Lemma normalize_url_fixed url :
  has_scheme url = true -> normalize_url url = url.
Proof. unfold normalize_url. now intros ->. Qed.

(** For a non-empty string, validation is the validator's verdict on the
    normalised form. *)
Lemma validate_url_normalize V url :
  url <> "" -> validate_url V url = V (normalize_url url).
Proof. destruct url; [congruence|reflexivity]. Qed.

Lemma occurs_in_middle before sub after :
  occurs_in sub (before ++ sub ++ after).
Proof. now exists before, after. Qed.

(* ================================================================== *)
(** ** The generator *)
(* ================================================================== *)

Lemma alphabet_length : String.length alphabet = 62.
Proof. reflexivity. Qed.

Lemma alphabet_alnum : all_chars is_alnum alphabet = true.
Proof. reflexivity. Qed.

Lemma get_all_chars p s : all_chars p s = true ->
  forall i, i < String.length s -> exists c, String.get i s = Some c /\ p c = true.
Proof.
  induction s as [|a s IH]; simpl; intros Hall i Hi; [lia|].
  apply andb_true_iff in Hall. destruct Hall as [Ha Hs].
  destruct i as [|i].
  - exists a. auto.
  - apply IH; [exact Hs|lia].
Qed.

Lemma choice_alphabet e pos :
  is_alnum (fst (choice alphabet e pos)) = true /\
  snd (choice alphabet e pos) = S pos.
Proof.
  assert (Hi : e pos mod String.length alphabet < String.length alphabet).
  { apply Nat.mod_upper_bound. rewrite alphabet_length. discriminate. }
  destruct (get_all_chars is_alnum alphabet alphabet_alnum _ Hi) as [c [Hc Hp]].
  unfold choice, bind, randbelow, ret. cbn [fst snd].
  rewrite Hc. split; [exact Hp|reflexivity].
Qed.

Lemma join_choices_S n e pos :
  join_choices (S n) e pos =
  let (c, pos1) := choice alphabet e pos in
  let (s, pos2) := join_choices n e pos1 in
  (String c s, pos2).
Proof. reflexivity. Qed.

Lemma join_choices_spec n : forall e pos,
  String.length (fst (join_choices n e pos)) = n /\
  all_chars is_alnum (fst (join_choices n e pos)) = true /\
  snd (join_choices n e pos) = pos + n.
Proof.
  induction n as [|n IH]; intros e pos.
  - simpl. repeat split; lia.
  - rewrite join_choices_S.
    pose proof (choice_alphabet e pos) as [Hc Hp].
    destruct (choice alphabet e pos) as [c pos1]. cbn [fst snd] in Hc, Hp.
    subst pos1.
    destruct (IH e (S pos)) as [Hl [Ha Hq]].
    destruct (join_choices n e (S pos)) as [s pos2]. cbn [fst snd] in *.
    cbn [String.length all_chars]. rewrite Hl, Hc, Ha.
    repeat split. lia.
Qed.

Lemma generate_short_code_cursor length e pos :
  snd (generate_short_code length e pos) = pos + Z.to_nat length.
Proof. apply join_choices_spec. Qed.

Lemma find_existsb {A} (p : A -> bool) (l : list A) :
  find p l = None <-> existsb p l = false.
Proof.
  induction l as [|a l IH]; simpl; [tauto|].
  destruct (p a); simpl; [split; discriminate|exact IH].
Qed.

Lemma query_first_in_store db code :
  query_first (fun r => short_code r =? code) db = None <->
  in_store db code = false.
Proof. apply find_existsb. Qed.

Lemma attempts_S db length n e pos :
  attempts db length (S n) e pos =
  let (code, pos1) := generate_short_code length e pos in
  match query_first (fun r => short_code r =? code) db with
  | None => (code, pos1)
  | Some _ => attempts db length n e pos1
  end.
Proof.
  cbn [attempts]. unfold bind.
  destruct (generate_short_code length e pos) as [code pos1].
  destruct (query_first _ db); reflexivity.
Qed.

Lemma attempts_spec db length n : forall e pos,
  (exists i, i < n /\
     (forall j, j < i -> in_store db (candidate length e pos j) = true) /\
     in_store db (candidate length e pos i) = false /\
     attempts db length n e pos =
       (candidate length e pos i, pos + (i + 1) * Z.to_nat length))
  \/
  ((forall j, j < n -> in_store db (candidate length e pos j) = true) /\
   attempts db length n e pos =
     generate_short_code (length + 2) e (pos + n * Z.to_nat length)).
Proof.
  induction n as [|n IH]; intros e pos.
  - right. split; [intros j Hj; lia|].
    simpl. now rewrite Nat.add_0_r.
  - rewrite attempts_S.
    pose proof (generate_short_code_cursor length e pos) as Hcur.
    assert (H0 : candidate length e pos 0 = fst (generate_short_code length e pos)).
    { unfold candidate. now rewrite Nat.add_0_r. }
    assert (Hshift : forall j, candidate length e (pos + Z.to_nat length) j
                               = candidate length e pos (S j)).
    { intros j. unfold candidate. f_equal. f_equal. simpl. lia. }
    destruct (generate_short_code length e pos) as [code pos1].
    cbn [fst snd] in Hcur, H0. subst pos1.
    destruct (query_first (fun r => short_code r =? code) db) as [r|] eqn:Eq.
    + assert (Hin : in_store db code = true).
      { destruct (in_store db code) eqn:E; [reflexivity|].
        apply query_first_in_store in E. congruence. }
      destruct (IH e (pos + Z.to_nat length)) as [[i [Hi [Hlt [Hfree Hout]]]]|[Hall Hout]].
      * left. exists (S i). split; [lia|]. split; [|split].
        -- intros [|j] Hj; [now rewrite H0|].
           rewrite <- Hshift. apply Hlt. lia.
        -- now rewrite <- Hshift.
        -- rewrite Hout, Hshift. f_equal. simpl. lia.
      * right. split.
        -- intros [|j] Hj; [now rewrite H0|].
           rewrite <- Hshift. apply Hall. lia.
        -- rewrite Hout. f_equal. simpl. lia.
    + left. exists 0. split; [lia|]. split; [intros j Hj; lia|]. split.
      * rewrite H0. now apply query_first_in_store.
      * rewrite H0. f_equal. simpl. lia.
Qed.

(* ================================================================== *)
(** ** The table and the session *)
(* ================================================================== *)

Lemma find_app_None {A} (p : A -> bool) l l' :
  find p l = None -> find p (l ++ l')%list = find p l'.
Proof.
  induction l as [|a l IH]; simpl; [reflexivity|].
  destruct (p a); [discriminate|exact IH].
Qed.

Lemma existsb_has_code code rows :
  existsb (has_code code) rows = true <-> In code (map short_code rows).
Proof.
  rewrite existsb_exists, in_map_iff. unfold has_code.
  split; intros [r [H1 H2]]; exists r.
  - apply String.eqb_eq in H2. tauto.
  - rewrite <- H1 in *. rewrite String.eqb_refl. tauto.
Qed.

(** With unique codes, the lookup by a row's code finds that row. *)
Lemma find_has_code_unique rows r :
  unique_codes rows -> In r rows ->
  find (has_code (short_code r)) rows = Some r.
Proof.
  unfold unique_codes.
  induction rows as [|a rows IH]; simpl; intros Hnd Hin; [contradiction|].
  inversion Hnd as [|? ? Hnotin Hnd']; subst.
  destruct Hin as [->|Hin].
  - unfold has_code. now rewrite String.eqb_refl.
  - unfold has_code at 1. destruct (short_code a =? short_code r) eqn:E.
    + apply String.eqb_eq in E. elim Hnotin. rewrite E.
      now apply in_map.
    + now apply IH.
Qed.

Lemma insert_cases now obj rows :
  insert now obj rows =
  if existsb (has_code (new_short_code obj)) rows
  then inl (IntegrityError "urls.short_code")
  else inr (rows ++ [new_row now obj rows])%list.
Proof. reflexivity. Qed.

Lemma unique_codes_snoc rows r :
  unique_codes rows -> existsb (has_code (short_code r)) rows = false ->
  unique_codes (rows ++ [r]).
Proof.
  unfold unique_codes. intros Hnd He.
  assert (Hnotin : ~ In (short_code r) (map short_code rows)).
  { rewrite <- existsb_has_code. congruence. }
  clear He. rewrite map_app. simpl.
  induction rows as [|a rows IH]; simpl.
  - constructor; [intros []|constructor].
  - inversion Hnd; subst. constructor.
    + rewrite in_app_iff. simpl in *. intuition.
    + apply IH; [assumption|]. simpl in Hnotin. tauto.
Qed.

Lemma insert_unique now obj rows rows' :
  unique_codes rows -> insert now obj rows = inr rows' -> unique_codes rows'.
Proof.
  rewrite insert_cases.
  destruct (existsb _ rows) eqn:E; [discriminate|].
  intros Hnd [= <-]. now apply unique_codes_snoc.
Qed.

(** What the [try] block of [shorten_url] comes to on a fresh session. *)
Lemma add_commit_refresh_cases env obj rows :
  add_commit_refresh env obj (SessionLocal rows) =
  if existsb (has_code (new_short_code obj)) rows
  then inl (IntegrityError "urls.short_code", add obj (SessionLocal rows))
  else if write_fails env
       then inl (OperationalError, add obj (SessionLocal rows))
       else inr (new_row (utcnow env) obj rows,
                 {| table := (rows ++ [new_row (utcnow env) obj rows])%list;
                    pending := [] |}).
Proof.
  unfold add_commit_refresh, commit, add, SessionLocal.
  cbn [table pending app flush]. rewrite insert_cases.
  destruct (existsb (has_code (new_short_code obj)) rows) eqn:E; [reflexivity|].
  destruct (write_fails env); [reflexivity|].
  unfold refresh. cbn [table].
  change (fun r => short_code r =? new_short_code obj)
    with (has_code (new_short_code obj)).
  rewrite find_app_None by now apply find_existsb.
  simpl. unfold has_code at 1. simpl. now rewrite String.eqb_refl.
Qed.

(* ================================================================== *)
(** ** The outcomes of a create request *)
(* ================================================================== *)

Lemma insert_attempt_cases raw env rows :
  insert_attempt raw env rows =
  if existsb (has_code (assigned_code env rows)) rows
  then inl (IntegrityError "urls.short_code")
  else if write_fails env then inl OperationalError
       else inr {| table := (rows ++ [new_row (utcnow env) (db_url raw env rows) rows])%list;
                   pending := [] |}.
Proof.
  unfold insert_attempt, commit, add, SessionLocal.
  cbn [table pending app flush]. rewrite insert_cases.
  cbn [db_url new_short_code].
  destruct (existsb (has_code (assigned_code env rows)) rows); reflexivity.
Qed.

Lemma create_short_url_outcome validators_url raw_url env rows :
  outcome validators_url raw_url env rows
          (create_short_url validators_url raw_url env rows).
Proof.
  unfold create_short_url, Schemas.model_validate.
  destruct raw_url as [|c s] eqn:Eraw.
  { simpl. now apply unprocessable. }
  rewrite <- Eraw.
  replace (1 <=? String.length raw_url)%nat with true
    by (rewrite Eraw; reflexivity).
  unfold with_db, shorten_url. cbn [Schemas.url].
  destruct (validate_url validators_url raw_url) eqn:Ev; cbn [negb].
  2:{ cbn [close table SessionLocal]. apply rejected; [congruence|assumption]. }
  unfold query_first. cbn [table SessionLocal].
  change (fun r : URL => original_url r =? normalize_url raw_url)
    with (has_url (normalize_url raw_url)).
  destruct (find (has_url (normalize_url raw_url)) rows) as [r|] eqn:Ef.
  { cbn [close table]. now apply existing. }
  fold (SessionLocal rows). fold (assigned_code env rows).
  fold (db_url raw_url env rows).
  rewrite add_commit_refresh_cases.
  pose proof (insert_attempt_cases raw_url env rows) as Hins.
  cbn [db_url new_short_code] in *.
  destruct (existsb (has_code (assigned_code env rows)) rows) eqn:Ec.
  { cbn [close rollback table add SessionLocal].
    now apply failed. }
  destruct (write_fails env) eqn:Ew.
  { cbn [close rollback table add SessionLocal].
    now apply failed. }
  cbn [close table]. now apply created.
Qed.

Lemma outcome_table V raw env rows out :
  outcome V raw env rows out ->
  snd out = rows \/
  (existsb (has_code (assigned_code env rows)) rows = false /\
   snd out = (rows ++ [new_row (utcnow env) (db_url raw env rows) rows])%list).
Proof. intros H. destruct H; simpl; auto. Qed.

Lemma redirect_cases code rows :
  redirect code rows =
  match find (has_code code) rows with
  | None => (HTTPException HTTP_404_NOT_FOUND
               ("Short code '" ++ code ++ "' not found"), rows)
  | Some r => (RedirectResponse (original_url r) HTTP_302_FOUND, rows)
  end.
Proof.
  unfold redirect, with_db, redirect_url, query_first, has_code.
  cbn [table SessionLocal]. destruct (find _ rows); reflexivity.
Qed.

Lemma stats_cases code env rows :
  stats code env rows =
  match find (has_code code) rows with
  | None => (HTTPException HTTP_404_NOT_FOUND
               ("Short code '" ++ code ++ "' not found"), rows)
  | Some r => (JSONResponse HTTP_200_OK (response_of env r), rows)
  end.
Proof.
  unfold stats, with_db, get_url_stats, query_first, has_code.
  cbn [table SessionLocal]. destruct (find _ rows); reflexivity.
Qed.

(** Every request keeps the codes unique. *)
Lemma step_unique_codes V op env rows :
  unique_codes rows -> unique_codes (snd (step V op env rows)).
Proof.
  intros Hu. destruct op as [raw|code|code]; cbn [step].
  - destruct (outcome_table _ _ _ _ _ (create_short_url_outcome V raw env rows))
      as [->|[Hfree ->]]; [exact Hu|].
    now apply unique_codes_snoc.
  - rewrite redirect_cases. now destruct (find _ rows).
  - rewrite stats_cases. now destruct (find _ rows).
Qed.

Lemma reachable_unique_codes V rows :
  reachable V rows -> unique_codes rows.
Proof.
  induction 1 as [|op env rows _ IH].
  - constructor.
  - now apply step_unique_codes.
Qed.

(* ================================================================== *)
(** ** Concrete runs *)
(* ================================================================== *)

Example rows2_value :
  Sample.rows2 =
  [ {| id := 1%Z; short_code := "aaaaaa";
       original_url := "https://example.com/a"; created_at := 1700000000%Z |};
    {| id := 2%Z; short_code := "aaaaaaaa";
       original_url := "https://example.com/b"; created_at := 1700000000%Z |} ].
Proof. reflexivity. Qed.

Lemma rows2_reachable : reachable Sample.validators_url Sample.rows2.
Proof.
  apply (reachable_step _ (Create "example.com/b") (Sample.env Sample.zeros)).
  apply (reachable_step _ (Create "example.com/a") (Sample.env Sample.zeros)).
  apply reachable_init.
Qed.

(* ================================================================== *)
(** ** Properties of the generator and of normalisation *)
(* ================================================================== *)

Lemma in_alphabet_alnum c : in_alphabet c = is_alnum c.
Proof.
  destruct c as [[] [] [] [] [] [] [] []]; reflexivity.
Qed.

Lemma all_chars_ext p q s :
  (forall c, p c = q c) -> all_chars p s = all_chars q s.
Proof. intros H. induction s; simpl; [reflexivity|]. now rewrite H, IHs. Qed.

(** C1. [get_unique_short_code db length max_attempts] draws candidates
    with [generate_short_code length], at most [max_attempts] of them, and
    returns the first one that is not a code of the store (after exactly
    that many calls); when all [max_attempts] candidates are in the store
    it returns what one call of [generate_short_code (length + 2)] gives,
    whether or not that is in the store.  It is a total function: one of
    the two cases holds for every store, every random source and every
    integer [max_attempts] (a negative one makes no attempt).  The last
    part exhibits a store and a source for which the code returned is
    already in the store. *)
Theorem get_unique_short_code_spec db length max_attempts e pos :
  let n := Z.to_nat max_attempts in
  let out := get_unique_short_code db length max_attempts e pos in
  ((exists i, i < n /\
      (forall j, j < i -> in_store db (candidate length e pos j) = true) /\
      in_store db (candidate length e pos i) = false /\
      out = (candidate length e pos i, pos + (i + 1) * Z.to_nat length))
   \/
   ((forall j, j < n -> in_store db (candidate length e pos j) = true) /\
    out = generate_short_code (length + 2) e (pos + n * Z.to_nat length)))
  /\
  in_store (SessionLocal Sample.rows2)
           (fst (get_unique_short_code (SessionLocal Sample.rows2)
                   default_length default_max_attempts Sample.zeros 0)) = true.
Proof.
  split.
  - apply attempts_spec.
  - reflexivity.
Qed.

(** C8. For a non-negative [length] and any random source,
    [generate_short_code length] returns a string of exactly [length]
    characters, each of them one of the 62 characters of the alphabet,
    which are a-z, A-Z and 0-9; it draws [length] times.  With the default
    length, the one [shorten_url] leaves in force, the string has 6
    characters. *)
Theorem generate_short_code_shape length e pos :
  (0 <= length)%Z ->
  let code := fst (generate_short_code length e pos) in
  Z.of_nat (String.length code) = length /\
  all_chars in_alphabet code = true /\
  String.length alphabet = 62 /\
  (forall c, in_alphabet c = is_alnum c) /\
  snd (generate_short_code length e pos) = pos + Z.to_nat length /\
  String.length (fst (generate_short_code default_length e pos)) = 6.
Proof.
  intros Hlen. cbv zeta. unfold generate_short_code.
  destruct (join_choices_spec (Z.to_nat length) e pos) as [Hl [Ha Hc]].
  split; [|split; [|split; [|split; [|split]]]].
  - rewrite Hl. now apply Z2Nat.id.
  - rewrite (all_chars_ext in_alphabet is_alnum); [exact Ha|].
    exact in_alphabet_alnum.
  - exact alphabet_length.
  - exact in_alphabet_alnum.
  - exact Hc.
  - apply (join_choices_spec (Z.to_nat default_length) e pos).
Qed.

Lemma generate_short_code_shape_witness :
  Z.of_nat (String.length (fst (generate_short_code 6 Sample.sevens 0))) = 6%Z /\
  fst (generate_short_code 6 Sample.sevens 0) = "ahovCJ".
Proof.
  split.
  - apply (generate_short_code_shape 6 Sample.sevens 0). lia.
  - reflexivity.
Defined.

(** C10. [normalize_url] is idempotent, because its result always
    starts with "http://" or "https://" and every string that starts
    with either is returned unchanged (a string that starts with neither
    is returned with "https://" in front). *)
Theorem normalize_url_idempotent url :
  normalize_url (normalize_url url) = normalize_url url /\
  (starts_with "http://" (normalize_url url) \/
   starts_with "https://" (normalize_url url)) /\
  (forall u, starts_with "http://" u \/ starts_with "https://" u ->
             normalize_url u = u) /\
  (forall u, ~ starts_with "http://" u -> ~ starts_with "https://" u ->
             normalize_url u = "https://" ++ u).
Proof.
  split; [|split; [|split]].
  - apply normalize_url_fixed, has_scheme_normalize.
  - apply has_scheme_true, has_scheme_normalize.
  - intros u Hu. now apply normalize_url_fixed, has_scheme_true.
  - intros u H1 H2. unfold normalize_url.
    replace (has_scheme u) with false; [reflexivity|].
    symmetry. now apply has_scheme_false.
Qed.

Lemma normalize_url_idempotent_witness :
  normalize_url (normalize_url "example.com/a") = "https://example.com/a" /\
  normalize_url "http://example.com/plain" = "http://example.com/plain".
Proof.
  destruct (normalize_url_idempotent "example.com/a") as [Hidem [_ [Hkeep Hadd]]].
  split.
  - rewrite Hidem. apply Hadd; intros [rest H]; discriminate H.
  - apply Hkeep. left. now exists "example.com/plain".
Defined.

(* ================================================================== *)
(** ** Properties of the handlers *)
(* ================================================================== *)

Lemma has_url_true url r : has_url url r = true -> original_url r = url.
Proof. apply String.eqb_eq. Qed.

(** A valid URL whose normalised form is stored is answered with the
    first row that holds it, and nothing is stored. *)
Lemma create_existing V raw env rows r :
  validate_url V raw = true ->
  find (has_url (normalize_url raw)) rows = Some r ->
  create_short_url V raw env rows
  = (JSONResponse HTTP_201_CREATED (response_of env r), rows).
Proof.
  intros Hv Hf.
  destruct (create_short_url_outcome V raw env rows); try congruence.
  subst. discriminate.
Qed.

(** C4. A string that starts with neither "http://" nor "https://" is
    normalised to "https://" followed by the string; one that starts with
    either is returned unchanged.  A create request with a valid URL looks
    the normalised form up among the stored [original_url]s: when a row
    has it, the first such row is answered and nothing is stored; when
    none has it and the request succeeds, the one row appended holds the
    normalised form, and so does the response. *)
Theorem normalize_url_spec :
  (forall url,
      ~ starts_with "http://" url -> ~ starts_with "https://" url ->
      normalize_url url = "https://" ++ url) /\
  (forall url,
      starts_with "http://" url \/ starts_with "https://" url ->
      normalize_url url = url) /\
  (forall V raw env rows,
      validate_url V raw = true ->
      match find (has_url (normalize_url raw)) rows with
      | Some r =>
          create_short_url V raw env rows
          = (JSONResponse HTTP_201_CREATED (response_of env r), rows)
      | None =>
          forall body rows',
            create_short_url V raw env rows
            = (JSONResponse HTTP_201_CREATED body, rows') ->
            exists r, rows' = (rows ++ [r])%list /\
                      original_url r = normalize_url raw /\
                      body = response_of env r
      end).
Proof.
  split; [|split].
  - intros url H1 H2. unfold normalize_url.
    replace (has_scheme url) with false; [reflexivity|].
    symmetry. now apply has_scheme_false.
  - intros url H. now apply normalize_url_fixed, has_scheme_true.
  - intros V raw env rows Hv.
    destruct (find (has_url (normalize_url raw)) rows) as [r|] eqn:Ef.
    + now apply create_existing.
    + intros body rows' Hc.
      pose proof (create_short_url_outcome V raw env rows) as Hout.
      rewrite Hc in Hout. inversion Hout; subst; try congruence.
      eexists. split; [reflexivity|]. split; reflexivity.
Qed.

Lemma normalize_url_spec_witness :
  normalize_url "example.com/x" = "https://example.com/x" /\
  normalize_url "http://example.com/plain" = "http://example.com/plain" /\
  create_short_url Sample.validators_url "example.com/a"
                   (Sample.env Sample.sevens) Sample.rows2
  = (JSONResponse HTTP_201_CREATED
       {| Schemas.short_url := "http://localhost:8000/aaaaaa";
          Schemas.original_url := "https://example.com/a";
          Schemas.short_code := "aaaaaa";
          Schemas.created_at := Some 1700000000%Z |},
     Sample.rows2).
Proof.
  destruct normalize_url_spec as [Hno [Hyes Hcreate]].
  split; [|split].
  - apply Hno; intros [rest H]; discriminate H.
  - apply Hyes. left. exists "example.com/plain". reflexivity.
  - apply (Hcreate Sample.validators_url "example.com/a"
                   (Sample.env Sample.sevens) Sample.rows2).
    reflexivity.
Defined.

(** C6. When no row of the store has exactly the given string as its
    [short_code] (strings compared character by character, so case
    matters), both [redirect] and [stats] raise the 404 HTTPException
    whose detail is "Short code '<code>' not found", in which the code
    occurs, and leave the store as it is. *)
Theorem not_found code env rows :
  (forall r, In r rows -> short_code r <> code) ->
  let detail := "Short code '" ++ code ++ "' not found" in
  redirect code rows = (HTTPException HTTP_404_NOT_FOUND detail, rows) /\
  stats code env rows = (HTTPException HTTP_404_NOT_FOUND detail, rows) /\
  HTTP_404_NOT_FOUND = 404%Z /\
  occurs_in code detail.
Proof.
  intros Hnone. cbv zeta.
  assert (Hf : find (has_code code) rows = None).
  { destruct (find (has_code code) rows) as [r|] eqn:E; [|reflexivity].
    apply find_some in E. destruct E as [Hin Hc].
    apply String.eqb_eq in Hc. now elim (Hnone r Hin). }
  rewrite redirect_cases, stats_cases, Hf.
  repeat split. apply occurs_in_middle.
Qed.

Lemma not_found_witness :
  redirect "AAAAAA" Sample.rows2
  = (HTTPException 404 "Short code 'AAAAAA' not found", Sample.rows2) /\
  stats "AAAAAA" (Sample.env Sample.zeros) Sample.rows2
  = (HTTPException 404 "Short code 'AAAAAA' not found", Sample.rows2) /\
  fst (redirect "aaaaaa" Sample.rows2)
  = RedirectResponse "https://example.com/a" 302.
Proof.
  assert (Hnone : forall r, In r Sample.rows2 -> short_code r <> "AAAAAA").
  { intros r [<-|[<-|[]]]; discriminate. }
  destruct (not_found "AAAAAA" (Sample.env Sample.zeros) Sample.rows2 Hnone)
    as [Hr [Hs _]].
  split; [exact Hr|]. split; [exact Hs|]. reflexivity.
Defined.

(** C7. In every table reachable from the empty one by create, redirect
    and stats requests run one after the other, no two rows share a
    [short_code]; and every such request, run on a table with that
    property, leaves a table with it. *)
Theorem short_codes_unique V :
  (forall rows, reachable V rows -> NoDup (map short_code rows)) /\
  (forall op env rows,
      NoDup (map short_code rows) ->
      NoDup (map short_code (snd (step V op env rows)))).
Proof.
  split.
  - exact (reachable_unique_codes V).
  - intros op env rows. exact (step_unique_codes V op env rows).
Qed.

Lemma short_codes_unique_witness :
  NoDup (map short_code Sample.rows2) /\
  NoDup (map short_code
           (snd (step Sample.validators_url (Create "example.com/c")
                      (Sample.env Sample.sevens) Sample.rows2))).
Proof.
  destruct (short_codes_unique Sample.validators_url) as [Hreach Hstep].
  split.
  - apply Hreach. exact rows2_reachable.
  - apply Hstep. apply Hreach. exact rows2_reachable.
Defined.

(** C9. When the insert of a create request fails (the UNIQUE index
    refuses the code, or the database cannot write), the handler rolls
    the session back and raises the 500 HTTPException that carries the
    database's message; the session it leaves is the one it was given,
    and the stored table after the request is the table before it. *)
Theorem insert_failure_rolls_back V raw env rows e :
  validate_url V raw = true ->
  find (has_url (normalize_url raw)) rows = None ->
  insert_attempt raw env rows = inl e ->
  let failing := add (db_url raw env rows) (SessionLocal rows) in
  let error := HTTPException HTTP_500_INTERNAL_SERVER_ERROR
                             ("Failed to save URL: " ++ str e) in
  shorten_url V {| Schemas.url := raw |} env (SessionLocal rows)
  = (error, rollback failing) /\
  rollback failing = SessionLocal rows /\
  create_short_url V raw env rows = (error, rows) /\
  status error = 500%Z.
Proof.
  intros Hv Hf Hins. cbv zeta. split; [|split; [|split]].
  - unfold shorten_url. cbn [Schemas.url]. rewrite Hv. cbn [negb].
    unfold query_first. cbn [table SessionLocal].
    change (fun r : URL => original_url r =? normalize_url raw)
      with (has_url (normalize_url raw)).
    rewrite Hf. fold (SessionLocal rows). fold (assigned_code env rows).
    fold (db_url raw env rows).
    rewrite add_commit_refresh_cases.
    rewrite insert_attempt_cases in Hins.
    cbn [db_url new_short_code] in *.
    destruct (existsb (has_code (assigned_code env rows)) rows).
    + now inversion Hins.
    + destruct (write_fails env); [now inversion Hins|discriminate].
  - reflexivity.
  - destruct (create_short_url_outcome V raw env rows)
      as [Hraw|Hraw Hv'|r Hv' Hf'|e' Hv' Hf' Hins'|Hv' Hf' Hfree Hw];
      try congruence.
    + subst. discriminate.
    + rewrite insert_attempt_cases, Hfree, Hw in Hins. discriminate.
  - reflexivity.
Qed.

Lemma insert_failure_rolls_back_witness :
  create_short_url Sample.validators_url "example.com/c"
                   (Sample.env Sample.zeros) Sample.rows2
  = (HTTPException 500
       "Failed to save URL: UNIQUE constraint failed: urls.short_code",
     Sample.rows2).
Proof.
  apply (insert_failure_rolls_back Sample.validators_url "example.com/c"
           (Sample.env Sample.zeros) Sample.rows2
           (IntegrityError "urls.short_code"));
    reflexivity.
Defined.

(** The same when it is the write that fails. *)
Example write_failure_rolls_back :
  create_short_url Sample.validators_url "example.com/c"
    {| BASE_URL := None; urandom := Sample.sevens; utcnow := 0%Z;
       write_fails := true |} Sample.rows2
  = (HTTPException 500 "Failed to save URL: disk I/O error", Sample.rows2).
Proof. reflexivity. Qed.

Lemma quote_length s safe :
  String.length s <= String.length (Urllib.quote s safe).
Proof.
  induction s as [|c s IH]; [apply le_n|].
  cbn [Urllib.quote]. destruct (Urllib.is_safe safe c); simpl; lia.
Qed.

(** [quote] leaves a string as it is exactly when it has nothing to
    encode in it. *)
Lemma quote_fixed s safe :
  Urllib.quote s safe = s <-> all_chars (Urllib.is_safe safe) s = true.
Proof.
  induction s as [|c s IH]; [split; reflexivity|].
  cbn [Urllib.quote all_chars].
  destruct (Urllib.is_safe safe c) eqn:Ec; cbn [andb].
  - rewrite <- IH. simpl. split; [now intros [= H]|now intros ->].
  - split; [|discriminate]. intros H.
    apply (f_equal String.length) in H.
    pose proof (quote_length s safe). simpl in H. lia.
Qed.

(** C2, as the code has it.  When a create request succeeds on a
    reachable table, a redirect request for the [short_code] of its
    response, on the table the create left, answers 302, and the URL it
    hands to [RedirectResponse] is the stored [original_url], the
    normalised form of the submitted URL, taken as it is.  The target the
    client receives, the [Location] header, is that URL percent-encoded
    by the framework; it is the normalised form exactly when every
    character of it is a letter, a digit, one of "_.-~" or one of
    ":/%#?=@[]!$&'()*+,;". *)
Theorem round_trip V raw env rows body rows' :
  reachable V rows ->
  create_short_url V raw env rows
  = (JSONResponse HTTP_201_CREATED body, rows') ->
  redirect (Schemas.short_code body) rows'
  = (RedirectResponse (normalize_url raw) HTTP_302_FOUND, rows') /\
  HTTP_302_FOUND = 302%Z /\
  location (fst (redirect (Schemas.short_code body) rows'))
  = Some (Urllib.quote (normalize_url raw) redirect_safe) /\
  (location (fst (redirect (Schemas.short_code body) rows'))
   = Some (normalize_url raw) <->
   all_chars (Urllib.is_safe redirect_safe) (normalize_url raw) = true).
Proof.
  intros Hreach Hc.
  assert (Hr : redirect (Schemas.short_code body) rows'
               = (RedirectResponse (normalize_url raw) HTTP_302_FOUND, rows')).
  { apply reachable_unique_codes in Hreach.
    pose proof (create_short_url_outcome V raw env rows) as Hout.
    rewrite Hc in Hout. rewrite redirect_cases.
    inversion Hout; subst; cbn [response_of Schemas.short_code].
    - match goal with H : find _ _ = Some ?r |- _ =>
        apply find_some in H; destruct H as [Hin Hurl];
        rewrite (find_has_code_unique _ _ Hreach Hin);
        now rewrite (has_url_true _ _ Hurl)
      end.
    - cbn [new_row short_code db_url new_short_code].
      rewrite find_app_None by now apply find_existsb.
      cbn [find]. unfold has_code at 1.
      cbn [new_row short_code db_url new_short_code].
      rewrite String.eqb_refl. reflexivity. }
  rewrite Hr. cbn [fst location].
  split; [reflexivity|]. split; [reflexivity|]. split; [reflexivity|].
  rewrite <- quote_fixed. split; [now intros [= H]|now intros ->].
Qed.

Lemma round_trip_witness :
  redirect "ahovCJ"
    (snd (create_short_url Sample.validators_url "example.com/x"
                           (Sample.env Sample.sevens) Sample.rows2))
  = (RedirectResponse "https://example.com/x" 302,
     snd (create_short_url Sample.validators_url "example.com/x"
                           (Sample.env Sample.sevens) Sample.rows2)) /\
  location
    (fst (redirect "ahovCJ"
            (snd (create_short_url Sample.validators_url "example.com/x"
                                   (Sample.env Sample.sevens) Sample.rows2))))
  = Some "https://example.com/x".
Proof.
  destruct (round_trip Sample.validators_url "example.com/x"
              (Sample.env Sample.sevens) Sample.rows2
              {| Schemas.short_url := "http://localhost:8000/ahovCJ";
                 Schemas.original_url := "https://example.com/x";
                 Schemas.short_code := "ahovCJ";
                 Schemas.created_at := Some 1700000000%Z |}
              _ rows2_reachable eq_refl)
    as [Hredirect [_ [_ Hsame]]].
  split; [exact Hredirect|]. apply Hsame. reflexivity.
Defined.

(** C2 as stated fails: the target is not always the normalised form.
    The URL "example.com/a?q={x}" is accepted and stored as
    "https://example.com/a?q={x}"; the redirect for its code answers 302
    with the braces of the [Location] percent-encoded. *)
Lemma location_is_percent_encoded :
  reachable validators_url_braces [] /\
  fst (create_short_url validators_url_braces "example.com/a?q={x}"
                        (Sample.env Sample.sevens) [])
  = JSONResponse 201
      {| Schemas.short_url := "http://localhost:8000/ahovCJ";
         Schemas.original_url := "https://example.com/a?q={x}";
         Schemas.short_code := "ahovCJ";
         Schemas.created_at := Some 1700000000%Z |} /\
  normalize_url "example.com/a?q={x}" = "https://example.com/a?q={x}" /\
  location
    (fst (redirect "ahovCJ"
            (snd (create_short_url validators_url_braces "example.com/a?q={x}"
                                   (Sample.env Sample.sevens) []))))
  = Some "https://example.com/a?q=%7Bx%7D".
Proof.
  split; [apply reachable_init|]. repeat split.
Qed.

(** C3, as the code has it.  When a create request for a valid URL
    succeeds, a second create request, run next on the table the first
    left and with an input of the same normalised form, succeeds too
    (201), with the same [short_code]: both responses are built from one
    row of that table, whose [original_url] is the normalised form, and
    the second request stores nothing. *)
Theorem dedup_idempotent V raw1 raw2 env1 env2 rows body1 rows1 :
  normalize_url raw1 = normalize_url raw2 ->
  validate_url V raw2 = true ->
  create_short_url V raw1 env1 rows
  = (JSONResponse HTTP_201_CREATED body1, rows1) ->
  exists r,
    In r rows1 /\
    original_url r = normalize_url raw1 /\
    body1 = response_of env1 r /\
    create_short_url V raw2 env2 rows1
    = (JSONResponse HTTP_201_CREATED (response_of env2 r), rows1) /\
    Schemas.short_code (response_of env2 r) = Schemas.short_code body1 /\
    HTTP_201_CREATED = 201%Z.
Proof.
  intros Hn Hv2 Hc.
  pose proof (create_short_url_outcome V raw1 env1 rows) as Hout.
  rewrite Hc in Hout.
  assert (Hfound : exists r, find (has_url (normalize_url raw1)) rows1 = Some r
                             /\ body1 = response_of env1 r).
  { inversion Hout; subst.
    - eexists. split; [eassumption|reflexivity].
    - eexists. split; [|reflexivity].
      rewrite find_app_None by assumption.
      cbn [find]. unfold has_url at 1.
      cbn [new_row original_url db_url new_original_url].
      now rewrite String.eqb_refl. }
  destruct Hfound as [r [Hf ->]]. exists r.
  pose proof (find_some _ _ Hf) as [Hin Hurl].
  split; [exact Hin|]. split; [now apply has_url_true|].
  split; [reflexivity|]. split; [|split; reflexivity].
  apply create_existing; [exact Hv2|]. now rewrite <- Hn.
Qed.

Lemma dedup_idempotent_witness :
  exists r,
    In r Sample.rows1 /\
    original_url r = "https://example.com/a" /\
    create_short_url Sample.validators_url "https://example.com/a"
                     (Sample.env Sample.sevens) Sample.rows1
    = (JSONResponse HTTP_201_CREATED
         (response_of (Sample.env Sample.sevens) r), Sample.rows1) /\
    Schemas.short_code (response_of (Sample.env Sample.sevens) r) = "aaaaaa" /\
    HTTP_201_CREATED = 201%Z.
Proof.
  destruct (dedup_idempotent Sample.validators_url
              "example.com/a" "https://example.com/a"
              (Sample.env Sample.zeros) (Sample.env Sample.sevens)
              []
              {| Schemas.short_url := "http://localhost:8000/aaaaaa";
                 Schemas.original_url := "https://example.com/a";
                 Schemas.short_code := "aaaaaa";
                 Schemas.created_at := Some 1700000000%Z |}
              Sample.rows1 eq_refl eq_refl eq_refl)
    as [r [H1 [H2 [H3 [H4 [H5 H6]]]]]].
  exists r. auto.
Defined.

(** C3 as stated fails: the first of the two requests need not
    succeed.  On the reachable table [Sample.rows2], under the source
    that always answers 0, the valid URL "example.com/c" is not stored;
    the ten candidates are all "aaaaaa", the fallback is "aaaaaaaa", both
    are in the table, the insert is refused and the request ends in 500.
    The second request meets the same table and ends the same way. *)
Lemma create_twice_can_fail :
  reachable Sample.validators_url Sample.rows2 /\
  validate_url Sample.validators_url "example.com/c" = true /\
  create_short_url Sample.validators_url "example.com/c"
                   (Sample.env Sample.zeros) Sample.rows2
  = (HTTPException 500
       "Failed to save URL: UNIQUE constraint failed: urls.short_code",
     Sample.rows2) /\
  status (fst (create_short_url Sample.validators_url "example.com/c"
                 (Sample.env Sample.zeros)
                 (snd (create_short_url Sample.validators_url "example.com/c"
                         (Sample.env Sample.zeros) Sample.rows2))))
  = 500%Z.
Proof.
  split; [exact rows2_reachable|]. repeat split.
Qed.

(** C5, as the code has it.  A create request ends in the 400
    HTTPException exactly when the submitted URL is not empty and the
    validator refuses it, after "https://" is put in front of it when it
    starts with neither "http://" nor "https://".  An empty URL does not
    reach the handler: the request schema, whose [url] has
    [min_length=1], refuses the body (422).  Given a request with an
    empty [url] the handler itself would answer 400, [validate_url]
    being false on the empty string.  A request that ends in 400 or 422
    stores nothing; "not-a-valid-url" ends in 400 whenever the validator
    refuses "https://not-a-valid-url". *)
Theorem invalid_input_rejected V raw env rows :
  let out := create_short_url V raw env rows in
  (status (fst out) = 400%Z <->
   raw <> "" /\
   V (if has_scheme raw then raw else "https://" ++ raw) = false) /\
  (status (fst out) = 400%Z ->
   out = (HTTPException HTTP_400_BAD_REQUEST invalid_url_detail, rows)) /\
  (raw = "" -> out = (RequestValidationError, rows)) /\
  (status (fst out) = 400%Z \/ status (fst out) = 422%Z -> snd out = rows) /\
  (forall db,
      shorten_url V {| Schemas.url := "" |} env db
      = (HTTPException HTTP_400_BAD_REQUEST invalid_url_detail, db)) /\
  (V "https://not-a-valid-url" = false ->
   create_short_url V "not-a-valid-url" env rows
   = (HTTPException HTTP_400_BAD_REQUEST invalid_url_detail, rows)).
Proof.
  cbv zeta.
  assert (Hval : raw <> "" ->
                 validate_url V raw
                 = V (if has_scheme raw then raw else "https://" ++ raw)).
  { intros Hne. rewrite validate_url_normalize by exact Hne.
    unfold normalize_url. now destruct (has_scheme raw). }
  split; [|split; [|split; [|split; [|split]]]].
  - destruct (create_short_url_outcome V raw env rows)
      as [Hraw|Hraw Hv|r Hv Hf|e Hv Hf Hins|Hv Hf Hfree Hw];
      cbn [fst status]; split;
      try (intros Hs; discriminate Hs);
      try (intros [Hne HV]; rewrite <- Hval in HV by exact Hne; congruence).
    + intros _. split; [exact Hraw|]. now rewrite <- Hval.
    + reflexivity.
  - destruct (create_short_url_outcome V raw env rows);
      cbn [fst status]; intros Hs; try discriminate Hs. reflexivity.
  - intros ->. reflexivity.
  - destruct (create_short_url_outcome V raw env rows);
      cbn [fst snd status]; intros [Hs|Hs]; try discriminate Hs; reflexivity.
  - reflexivity.
  - intros HV.
    destruct (create_short_url_outcome V "not-a-valid-url" env rows)
      as [Hraw|Hraw Hv|r Hv Hf|e Hv Hf Hins|Hv Hf Hfree Hw];
      try reflexivity; try discriminate Hraw;
      rewrite validate_url_normalize in Hv by discriminate;
      cbv in Hv; congruence.
Qed.

Lemma invalid_input_rejected_witness :
  create_short_url Sample.validators_url "not-a-valid-url"
                   (Sample.env Sample.zeros) Sample.rows2
  = (HTTPException 400 invalid_url_detail, Sample.rows2).
Proof.
  apply (proj2 (proj2 (proj2 (proj2 (proj2
           (invalid_input_rejected Sample.validators_url ""
              (Sample.env Sample.zeros) Sample.rows2)))))).
  reflexivity.
Defined.

(** C5 as stated fails on the empty URL: the request ends in
    the schema's 422, not in 400. *)
Lemma empty_url_is_unprocessable :
  create_short_url Sample.validators_url "" (Sample.env Sample.zeros)
                   Sample.rows2
  = (RequestValidationError, Sample.rows2) /\
  status RequestValidationError = 422%Z.
Proof. split; reflexivity. Qed.

(** The code a create request asks for has six characters when one of
    the ten candidates is free, and eight, the fallback's, when none is.
    On an empty table the first candidate is free. *)
Lemma assigned_code_length env rows :
  String.length (assigned_code env rows) = 6 \/
  String.length (assigned_code env rows) = 8.
Proof.
  unfold assigned_code, get_unique_short_code.
  destruct (attempts_spec (SessionLocal rows) default_length
              (Z.to_nat default_max_attempts) (urandom env) 0)
    as [[i [_ [_ [_ ->]]]]|[_ ->]].
  - left. unfold candidate, generate_short_code. cbn [fst].
    apply join_choices_spec.
  - right. unfold generate_short_code.
    apply (join_choices_spec (Z.to_nat (default_length + 2))).
Qed.

Lemma assigned_code_length_empty env :
  String.length (assigned_code env []) = 6.
Proof.
  unfold assigned_code, get_unique_short_code.
  change (Z.to_nat default_max_attempts) with 10.
  rewrite attempts_S.
  pose proof (join_choices_spec (Z.to_nat default_length) (urandom env) 0)
    as [Hl _].
  fold (generate_short_code default_length) in Hl.
  destruct (generate_short_code default_length (urandom env) 0) as [code pos1].
  exact Hl.
Qed.

(* ================================================================== *)
(** ** Further properties of utils.py *)
(* ================================================================== *)

Lemma normalize_url_nonempty url : normalize_url url <> "".
Proof.
  intros H. pose proof (has_scheme_normalize url) as Hs.
  rewrite H in Hs. discriminate Hs.
Qed.

Lemma validate_url_of_normalized V url :
  url <> "" -> validate_url V (normalize_url url) = validate_url V url.
Proof.
  intros Hne.
  rewrite (validate_url_normalize V (normalize_url url))
    by apply normalize_url_nonempty.
  rewrite (validate_url_normalize V url) by exact Hne.
  now rewrite (normalize_url_fixed _ (has_scheme_normalize url)).
Qed.

(** X1. Validation does not tell a non-empty URL from its normalised
    form: [validate_url] gives the same verdict on both, whatever the
    validator.  (The empty string is refused although its normalised
    form, "https://", is handed to the validator.) *)
Theorem validate_url_normalize_invariant V url :
  url <> "" ->
  validate_url V (normalize_url url) = validate_url V url /\
  validate_url V "" = false /\
  validate_url V (normalize_url "") = V "https://".
Proof.
  intros Hne. split; [now apply validate_url_of_normalized|].
  split; reflexivity.
Qed.

Lemma validate_url_normalize_invariant_witness :
  validate_url Sample.validators_url (normalize_url "example.com/a")
  = validate_url Sample.validators_url "example.com/a".
Proof.
  apply (validate_url_normalize_invariant Sample.validators_url "example.com/a").
  discriminate.
Defined.

(** X2. Two strings have the same normalised form exactly when they are
    equal or one of them, which carries no scheme, becomes the other by
    putting "https://" in front of it. *)
Theorem normalize_url_collisions u v :
  normalize_url u = normalize_url v <->
  u = v \/
  (has_scheme u = false /\ v = "https://" ++ u) \/
  (has_scheme v = false /\ u = "https://" ++ v).
Proof.
  unfold normalize_url.
  destruct (has_scheme u) eqn:Eu, (has_scheme v) eqn:Ev; cbn [negb]; split.
  - auto.
  - intros [H|[[H _]|[H _]]]; [exact H|discriminate H|discriminate H].
  - intros H. right. right. auto.
  - intros [H|[[H _]|[_ H]]]; [|discriminate H|exact H].
    subst. congruence.
  - intros H. right. left. auto.
  - intros [H|[[_ H]|[H _]]]; [|now symmetry|discriminate H].
    subst. congruence.
  - intros H. left. simpl in H. congruence.
  - intros [H|[[_ H]|[_ H]]]; [now subst| |].
    + subst v. rewrite has_scheme_https in Ev. discriminate.
    + subst u. rewrite has_scheme_https in Eu. discriminate.
Qed.

(** X3. [generate_short_code] returns the empty string, and draws
    nothing, exactly when [length] is zero or negative. *)
Theorem generate_short_code_empty length e pos :
  generate_short_code length e pos = ("", pos) <-> (length <= 0)%Z.
Proof.
  unfold generate_short_code.
  destruct (join_choices_spec (Z.to_nat length) e pos) as [Hl [_ Hc]].
  split.
  - intros H. rewrite H in Hl. cbn in Hl. lia.
  - intros H. replace (Z.to_nat length) with 0 by lia. reflexivity.
Qed.

Lemma get_of_all_chars p s : all_chars p s = true ->
  forall i c, String.get i s = Some c -> p c = true.
Proof.
  induction s as [|a s IH]; simpl; intros Hall i c Hget; [discriminate|].
  apply andb_true_iff in Hall. destruct Hall as [Ha Hs].
  destruct i as [|i].
  - now inversion Hget; subst.
  - now apply (IH Hs i).
Qed.

Lemma get_index_in_alphabet c :
  in_alphabet c = true ->
  String.get (index_in c alphabet mod String.length alphabet) alphabet = Some c.
Proof.
  destruct c as [[] [] [] [] [] [] [] []]; intros H;
    first [discriminate H | reflexivity].
Qed.

Lemma join_choices_spells s : forall e pos,
  (forall i c, String.get i s = Some c ->
               String.get (e (pos + i) mod String.length alphabet) alphabet = Some c) ->
  join_choices (String.length s) e pos = (s, pos + String.length s).
Proof.
  induction s as [|a s IH]; intros e pos H.
  - simpl. now rewrite Nat.add_0_r.
  - cbn [String.length]. rewrite join_choices_S.
    unfold choice, bind, randbelow, ret.
    pose proof (H 0 a eq_refl) as H0. rewrite Nat.add_0_r in H0.
    rewrite H0.
    rewrite (IH e (S pos)).
    + f_equal. lia.
    + intros i c Hget. replace (S pos + i) with (pos + S i) by lia.
      now apply H.
Qed.

(** X4. Every string over the alphabet is a possible code: for the
    random source that answers, at each draw, the place of the next
    character in the alphabet, [generate_short_code] returns exactly that
    string, having drawn once per character. *)
Theorem generate_short_code_onto code :
  all_chars in_alphabet code = true ->
  generate_short_code (Z.of_nat (String.length code)) (source_for code) 0
  = (code, String.length code).
Proof.
  intros Hall. unfold generate_short_code. rewrite Nat2Z.id.
  rewrite join_choices_spells; [reflexivity|].
  intros i c Hget. cbn [Nat.add]. unfold source_for. rewrite Hget.
  apply get_index_in_alphabet. exact (get_of_all_chars _ _ Hall i c Hget).
Qed.

Lemma generate_short_code_onto_witness :
  generate_short_code 6 (source_for "Zz09aA") 0 = ("Zz09aA", 6).
Proof.
  apply (generate_short_code_onto "Zz09aA"). reflexivity.
Defined.

(** X5. For a non-negative [length], a code of [length] characters
    returned by [get_unique_short_code] is never a code of the store:
    only the fallback, two characters longer, is returned unchecked. *)
Theorem get_unique_short_code_fresh db length max_attempts e pos :
  (0 <= length)%Z ->
  String.length (fst (get_unique_short_code db length max_attempts e pos))
  = Z.to_nat length ->
  in_store db (fst (get_unique_short_code db length max_attempts e pos)) = false.
Proof.
  intros Hlen. unfold get_unique_short_code.
  destruct (attempts_spec db length (Z.to_nat max_attempts) e pos)
    as [[i [_ [_ [Hfree ->]]]]|[_ ->]]; cbn [fst].
  - intros _. exact Hfree.
  - unfold generate_short_code.
    destruct (join_choices_spec (Z.to_nat (length + 2)) e
                (pos + Z.to_nat max_attempts * Z.to_nat length)) as [Hl _].
    rewrite Hl. lia.
Qed.

Lemma get_unique_short_code_fresh_witness :
  in_store (SessionLocal Sample.rows2)
    (fst (get_unique_short_code (SessionLocal Sample.rows2) 6 10
            Sample.sevens 0)) = false.
Proof.
  apply (get_unique_short_code_fresh (SessionLocal Sample.rows2) 6 10
           Sample.sevens 0); [lia|reflexivity].
Defined.

(** X6. On an empty table, with at least one attempt allowed,
    [get_unique_short_code] returns its first candidate after a single
    call of [generate_short_code length]; with no attempt allowed
    ([max_attempts] zero or negative) it returns the unchecked fallback
    at once, whatever the table holds. *)
Theorem get_unique_short_code_edges db length max_attempts e pos :
  (table db = [] -> (1 <= max_attempts)%Z ->
   get_unique_short_code db length max_attempts e pos
   = generate_short_code length e pos) /\
  ((max_attempts <= 0)%Z ->
   get_unique_short_code db length max_attempts e pos
   = generate_short_code (length + 2) e pos).
Proof.
  unfold get_unique_short_code. split.
  - intros Hempty Hmax.
    destruct (Z.to_nat max_attempts) as [|n] eqn:En; [lia|].
    rewrite attempts_S.
    destruct (generate_short_code length e pos) as [code pos1].
    unfold query_first. now rewrite Hempty.
  - intros Hmax. replace (Z.to_nat max_attempts) with 0 by lia. reflexivity.
Qed.

Lemma get_unique_short_code_edges_witness :
  get_unique_short_code (SessionLocal []) 6 10 Sample.sevens 0
  = ("ahovCJ", 6) /\
  get_unique_short_code (SessionLocal Sample.rows2) 6 (-1) Sample.zeros 0
  = ("aaaaaaaa", 8).
Proof.
  destruct (get_unique_short_code_edges (SessionLocal []) 6 10 Sample.sevens 0)
    as [Hfirst _].
  destruct (get_unique_short_code_edges (SessionLocal Sample.rows2) 6 (-1)
              Sample.zeros 0) as [_ Hnone].
  split.
  - rewrite Hfirst; [reflexivity|reflexivity|lia].
  - rewrite Hnone; [reflexivity|lia].
Defined.

(* ================================================================== *)
(** ** Further properties of the handlers *)
(* ================================================================== *)

Lemma find_app_found {A} (p : A -> bool) l l' a :
  find p l = Some a -> find p (l ++ l')%list = Some a.
Proof.
  induction l as [|b l IH]; simpl; [discriminate|].
  destruct (p b); [trivial|exact IH].
Qed.

Lemma has_code_true code r : has_code code r = true -> short_code r = code.
Proof. apply String.eqb_eq. Qed.

(** The row behind a successful create request. *)
Lemma created_row V raw env rows body rows' :
  reachable V rows ->
  create_short_url V raw env rows
  = (JSONResponse HTTP_201_CREATED body, rows') ->
  exists r,
    find (has_code (Schemas.short_code body)) rows' = Some r /\
    body = response_of env r /\
    original_url r = normalize_url raw.
Proof.
  intros Hreach Hc. apply reachable_unique_codes in Hreach.
  pose proof (create_short_url_outcome V raw env rows) as Hout.
  rewrite Hc in Hout.
  inversion Hout; subst; cbn [response_of Schemas.short_code].
  - match goal with H : find _ _ = Some ?r |- _ =>
      apply find_some in H; destruct H as [Hin Hurl]; exists r
    end.
    split; [now apply find_has_code_unique|].
    split; [reflexivity|now apply has_url_true].
  - eexists. split; [|split; reflexivity].
    cbn [new_row short_code db_url new_short_code].
    rewrite find_app_None by now apply find_existsb.
    cbn [find]. unfold has_code at 1.
    cbn [new_row short_code db_url new_short_code].
    now rewrite String.eqb_refl.
Qed.

(** X7. When a create request succeeds on a reachable table, a stats
    request for the [short_code] of its response, in the same
    environment and on the table the create left, answers 200 with the
    very body the create answered, and changes nothing. *)
Theorem stats_round_trip V raw env rows body rows' :
  reachable V rows ->
  create_short_url V raw env rows
  = (JSONResponse HTTP_201_CREATED body, rows') ->
  stats (Schemas.short_code body) env rows'
  = (JSONResponse HTTP_200_OK body, rows') /\
  HTTP_200_OK = 200%Z.
Proof.
  intros Hreach Hc. split; [|reflexivity].
  destruct (created_row V raw env rows body rows' Hreach Hc) as [r [Hf [-> _]]].
  rewrite stats_cases. cbn [response_of Schemas.short_code] in *.
  now rewrite Hf.
Qed.

Lemma stats_round_trip_witness :
  stats "ahovCJ" (Sample.env Sample.sevens)
    (snd (create_short_url Sample.validators_url "example.com/x"
                           (Sample.env Sample.sevens) Sample.rows2))
  = (JSONResponse 200
       {| Schemas.short_url := "http://localhost:8000/ahovCJ";
          Schemas.original_url := "https://example.com/x";
          Schemas.short_code := "ahovCJ";
          Schemas.created_at := Some 1700000000%Z |},
     snd (create_short_url Sample.validators_url "example.com/x"
                           (Sample.env Sample.sevens) Sample.rows2)).
Proof.
  refine (proj1 (stats_round_trip Sample.validators_url "example.com/x"
                   (Sample.env Sample.sevens) Sample.rows2
                   {| Schemas.short_url := "http://localhost:8000/ahovCJ";
                      Schemas.original_url := "https://example.com/x";
                      Schemas.short_code := "ahovCJ";
                      Schemas.created_at := Some 1700000000%Z |}
                   _ rows2_reachable _)).
  reflexivity.
Defined.

(** X8. [redirect] and [stats] only read: each leaves the table as it
    found it.  They agree on what exists: [redirect] answers 302 exactly
    when some row has the code, exactly when [stats] answers 200; in
    every other case both answer 404. *)
Theorem reads_agree code env rows :
  snd (redirect code rows) = rows /\
  snd (stats code env rows) = rows /\
  ((exists r, In r rows /\ short_code r = code) <->
   status (fst (redirect code rows)) = 302%Z) /\
  (status (fst (redirect code rows)) = 302%Z <->
   status (fst (stats code env rows)) = 200%Z) /\
  (status (fst (redirect code rows)) = 302%Z \/
   status (fst (redirect code rows)) = 404%Z /\
   status (fst (stats code env rows)) = 404%Z).
Proof.
  rewrite redirect_cases, stats_cases.
  destruct (find (has_code code) rows) as [r|] eqn:Ef; cbn [fst snd status].
  - split; [reflexivity|]. split; [reflexivity|].
    apply find_some in Ef. destruct Ef as [Hin Hc].
    apply has_code_true in Hc.
    split; [|split; [|left; reflexivity]].
    + split; [reflexivity|]. intros _. now exists r.
    + split; reflexivity.
  - split; [reflexivity|]. split; [reflexivity|].
    split; [|split; [|right; split; reflexivity]].
    + split; [|discriminate].
      intros [r [Hin Hc]].
      apply (find_none _ _ Ef) in Hin. unfold has_code in Hin.
      rewrite Hc, String.eqb_refl in Hin. discriminate.
    + split; discriminate.
Qed.

(** A request appends at most one row and touches no other. *)
Lemma step_appends V op env rows :
  exists added,
    snd (step V op env rows) = (rows ++ added)%list /\ List.length added <= 1.
Proof.
  destruct op as [raw|code|code]; cbn [step].
  - destruct (outcome_table _ _ _ _ _ (create_short_url_outcome V raw env rows))
      as [->|[_ ->]].
    + exists []. rewrite app_nil_r. auto.
    + eexists. split; [reflexivity|]. simpl. lia.
  - rewrite redirect_cases. exists []. rewrite app_nil_r.
    destruct (find _ rows); auto.
  - rewrite stats_cases. exists []. rewrite app_nil_r.
    destruct (find _ rows); auto.
Qed.

Lemma serve_appends V requests : forall rows,
  exists added,
    serve V requests rows = (rows ++ added)%list /\
    List.length added <= List.length requests.
Proof.
  induction requests as [|[op env] rest IH]; intros rows; cbn [serve].
  - exists []. rewrite app_nil_r. auto.
  - destruct (step_appends V op env rows) as [a1 [-> H1]].
    destruct (IH (rows ++ a1)%list) as [a2 [-> H2]].
    exists (a1 ++ a2)%list. rewrite app_assoc. split; [reflexivity|].
    rewrite length_app. simpl. lia.
Qed.

(** X9. The store is append-only: whatever requests are served, in
    whatever environments, the table afterwards is the table before
    followed by the rows added, at most one per request; every row stays
    at its place, unchanged, and none is removed. *)
Theorem store_is_append_only V requests rows :
  (exists added,
      serve V requests rows = (rows ++ added)%list /\
      List.length added <= List.length requests) /\
  (forall i r, nth_error rows i = Some r ->
               nth_error (serve V requests rows) i = Some r) /\
  List.length rows <= List.length (serve V requests rows)
  <= List.length rows + List.length requests.
Proof.
  destruct (serve_appends V requests rows) as [added [Hs Hlen]].
  split; [now exists added|]. rewrite Hs. split.
  - intros i r Hi. rewrite nth_error_app1; [exact Hi|].
    apply nth_error_Some. congruence.
  - rewrite length_app. lia.
Qed.

(** X10. Short links are permanent: once [redirect] answers a code with
    a target, it answers that code with the same target after any
    further requests. *)
Theorem redirect_is_permanent V requests code rows target :
  fst (redirect code rows) = RedirectResponse target HTTP_302_FOUND ->
  fst (redirect code (serve V requests rows))
  = RedirectResponse target HTTP_302_FOUND.
Proof.
  destruct (serve_appends V requests rows) as [added [-> _]].
  rewrite !redirect_cases.
  destruct (find (has_code code) rows) as [r|] eqn:Ef; [|discriminate].
  now rewrite (find_app_found _ _ _ _ Ef).
Qed.

Lemma redirect_is_permanent_witness :
  fst (redirect "aaaaaa"
         (serve Sample.validators_url
                [ (Create "example.com/c", Sample.env Sample.sevens);
                  (Create "example.com/x", Sample.env Sample.zeros);
                  (Stats "aaaaaa", Sample.env Sample.zeros) ]
                Sample.rows2))
  = RedirectResponse "https://example.com/a" 302.
Proof.
  apply (redirect_is_permanent Sample.validators_url _ "aaaaaa" Sample.rows2
           "https://example.com/a").
  reflexivity.
Defined.

Lemma max_id_seq n : forall a,
  fold_right Z.max 0%Z (map Z.of_nat (seq a n))
  = match n with O => 0%Z | S _ => Z.of_nat (a + n - 1) end.
Proof.
  induction n as [|n IH]; intros a; [reflexivity|].
  cbn [seq map fold_right]. rewrite IH. destruct n; lia.
Qed.

Lemma next_id_fold rows :
  next_id rows = (fold_right Z.max 0%Z (map id rows) + 1)%Z.
Proof.
  unfold next_id. f_equal. induction rows as [|r rows IH]; simpl; congruence.
Qed.

Lemma step_ids V op env rows :
  map id rows = map Z.of_nat (seq 1 (List.length rows)) ->
  map id (snd (step V op env rows))
  = map Z.of_nat (seq 1 (List.length (snd (step V op env rows)))).
Proof.
  intros Hids. destruct op as [raw|code|code]; cbn [step].
  - destruct (outcome_table _ _ _ _ _ (create_short_url_outcome V raw env rows))
      as [->|[_ ->]]; [exact Hids|].
    rewrite length_app, map_app. cbn [List.length map new_row id].
    rewrite Nat.add_1_r, seq_S, map_app, <- Hids. cbn [map]. f_equal. f_equal.
    rewrite next_id_fold, Hids, max_id_seq. destruct (List.length rows); lia.
  - rewrite redirect_cases. now destruct (find _ rows).
  - rewrite stats_cases. now destruct (find _ rows).
Qed.

(** X11. In every reachable table the primary keys are 1, 2, ..., n in
    the order of insertion. *)
Theorem ids_are_consecutive V rows :
  reachable V rows ->
  map id rows = map Z.of_nat (seq 1 (List.length rows)).
Proof.
  induction 1 as [|op env rows _ IH]; [reflexivity|].
  now apply step_ids.
Qed.

Lemma ids_are_consecutive_witness :
  map id Sample.rows2 = [1%Z; 2%Z].
Proof.
  exact (ids_are_consecutive Sample.validators_url Sample.rows2 rows2_reachable).
Defined.

Lemma NoDup_snoc {A} (l : list A) (x : A) :
  NoDup l -> ~ In x l -> NoDup (l ++ [x]).
Proof.
  induction l as [|a l IH]; simpl; intros Hnd Hx.
  - constructor; [intros []|constructor].
  - inversion Hnd; subst. constructor.
    + rewrite in_app_iff. simpl. intuition.
    + apply IH; tauto.
Qed.

Lemma NoDup_map_injective {A B} (f : A -> B) (l : list A) a b :
  NoDup (map f l) -> In a l -> In b l -> f a = f b -> a = b.
Proof.
  induction l as [|c l IH]; simpl; intros Hnd Ha Hb Hf; [contradiction|].
  inversion Hnd as [|? ? Hnotin Hnd']; subst.
  destruct Ha as [->|Ha], Hb as [->|Hb].
  - reflexivity.
  - elim Hnotin. rewrite Hf. now apply in_map.
  - elim Hnotin. rewrite <- Hf. now apply in_map.
  - now apply IH.
Qed.

Lemma find_has_url_None url rows :
  find (has_url url) rows = None -> ~ In url (map original_url rows).
Proof.
  intros Hf Hin. apply in_map_iff in Hin. destruct Hin as [r [Hr Hin]].
  apply (find_none _ _ Hf) in Hin. unfold has_url in Hin.
  rewrite Hr, String.eqb_refl in Hin. discriminate.
Qed.

Lemma step_unique_urls V op env rows :
  NoDup (map original_url rows) ->
  NoDup (map original_url (snd (step V op env rows))).
Proof.
  intros Hu. destruct op as [raw|code|code]; cbn [step].
  - destruct (create_short_url_outcome V raw env rows); cbn [snd]; try exact Hu.
    rewrite map_app. cbn [map new_row original_url db_url new_original_url].
    apply NoDup_snoc; [exact Hu|]. now apply find_has_url_None.
  - rewrite redirect_cases. now destruct (find _ rows).
  - rewrite stats_cases. now destruct (find _ rows).
Qed.

Lemma reachable_unique_urls V rows :
  reachable V rows -> NoDup (map original_url rows).
Proof.
  induction 1 as [|op env rows _ IH]; [constructor|].
  now apply step_unique_urls.
Qed.

(** X12. When requests are served one after the other, a reachable table
    holds each [original_url] once, and it pairs codes and URLs one to
    one: two of its rows have the same [short_code] exactly when they
    have the same [original_url], and then they are one row. *)
Theorem codes_and_urls_one_to_one V rows r1 r2 :
  reachable V rows -> In r1 rows -> In r2 rows ->
  NoDup (map original_url rows) /\
  (short_code r1 = short_code r2 <-> original_url r1 = original_url r2) /\
  (short_code r1 = short_code r2 -> r1 = r2).
Proof.
  intros Hreach H1 H2.
  pose proof (reachable_unique_urls V rows Hreach) as Hurls.
  pose proof (reachable_unique_codes V rows Hreach) as Hcodes.
  split; [exact Hurls|]. split; [split|]; intros H.
  - now rewrite (NoDup_map_injective short_code rows r1 r2 Hcodes H1 H2 H).
  - now rewrite (NoDup_map_injective original_url rows r1 r2 Hurls H1 H2 H).
  - exact (NoDup_map_injective short_code rows r1 r2 Hcodes H1 H2 H).
Qed.

Lemma codes_and_urls_one_to_one_witness :
  NoDup (map original_url Sample.rows2).
Proof.
  refine (proj1 (codes_and_urls_one_to_one Sample.validators_url Sample.rows2
                   (mkURL 1%Z "aaaaaa" "https://example.com/a" 1700000000%Z)
                   (mkURL 2%Z "aaaaaaaa" "https://example.com/b" 1700000000%Z)
                   rows2_reachable _ _)).
  - left. reflexivity.
  - right. left. reflexivity.
Defined.

Lemma assigned_code_alphabet env rows :
  all_chars in_alphabet (assigned_code env rows) = true.
Proof.
  rewrite (all_chars_ext in_alphabet is_alnum) by exact in_alphabet_alnum.
  unfold assigned_code, get_unique_short_code.
  destruct (attempts_spec (SessionLocal rows) default_length
              (Z.to_nat default_max_attempts) (urandom env) 0)
    as [[i [_ [_ [_ ->]]]]|[_ ->]].
  - unfold candidate, generate_short_code. cbn [fst].
    apply join_choices_spec.
  - unfold generate_short_code.
    apply (join_choices_spec (Z.to_nat (default_length + 2))).
Qed.

Lemma step_well_formed V op env rows :
  Forall (well_formed_row V) rows ->
  Forall (well_formed_row V) (snd (step V op env rows)).
Proof.
  intros Hwf. destruct op as [raw|code|code]; cbn [step].
  - destruct (create_short_url_outcome V raw env rows)
      as [Hraw|Hraw Hv|r Hv Hf|e Hv Hf Hins|Hv Hf Hfree Hw];
      cbn [snd]; try exact Hwf.
    apply Forall_app. split; [exact Hwf|]. constructor; [|constructor].
    unfold well_formed_row.
    cbn [new_row original_url short_code db_url new_short_code new_original_url].
    split; [apply has_scheme_normalize|]. split; [|split].
    + rewrite validate_url_of_normalized; [exact Hv|].
      intros ->. discriminate Hv.
    + apply assigned_code_alphabet.
    + apply assigned_code_length.
  - rewrite redirect_cases. now destruct (find _ rows).
  - rewrite stats_cases. now destruct (find _ rows).
Qed.

(** X13. Every row of a reachable table is well formed: its
    [original_url] starts with "http://" or "https://" and passes
    [validate_url], and its [short_code] consists of six or eight
    characters of the alphabet. *)
Theorem stored_rows_well_formed V rows r :
  reachable V rows -> In r rows ->
  (starts_with "http://" (original_url r) \/
   starts_with "https://" (original_url r)) /\
  validate_url V (original_url r) = true /\
  all_chars in_alphabet (short_code r) = true /\
  (String.length (short_code r) = 6 \/ String.length (short_code r) = 8).
Proof.
  intros Hreach Hin.
  assert (Hall : Forall (well_formed_row V) rows).
  { clear r Hin. induction Hreach as [|op env rows _ IH]; [constructor|].
    now apply step_well_formed. }
  rewrite Forall_forall in Hall. destruct (Hall r Hin) as [Hs Hrest].
  split; [now apply has_scheme_true|exact Hrest].
Qed.

Lemma stored_rows_well_formed_witness :
  validate_url Sample.validators_url "https://example.com/b" = true /\
  all_chars in_alphabet "aaaaaaaa" = true.
Proof.
  destruct (stored_rows_well_formed Sample.validators_url Sample.rows2
              (mkURL 2%Z "aaaaaaaa" "https://example.com/b" 1700000000%Z)
              rows2_reachable (or_intror (or_introl eq_refl)))
    as [_ [Hv [Ha _]]].
  split; [exact Hv|exact Ha].
Defined.

(** X14. A create request ends in 201, 400, 422 or 500.  It ends in 500
    exactly when the URL is valid and not yet stored and the insert
    fails, which happens when the code the generator returned is already
    stored or the database cannot write; it ends in 201 exactly when the
    URL is valid and either stored already or inserted. *)
Theorem create_status V raw env rows :
  let s := status (fst (create_short_url V raw env rows)) in
  let fresh := find (has_url (normalize_url raw)) rows = None in
  let collides := existsb (has_code (assigned_code env rows)) rows in
  (s = 201 \/ s = 400 \/ s = 422 \/ s = 500)%Z /\
  (s = 500%Z <->
   validate_url V raw = true /\ fresh /\
   (collides = true \/ write_fails env = true)) /\
  (s = 201%Z <->
   validate_url V raw = true /\
   (~ fresh \/ collides = false /\ write_fails env = false)).
Proof.
  cbv zeta.
  destruct (create_short_url_outcome V raw env rows)
    as [Hraw|Hraw Hv|r Hv Hf|e Hv Hf Hins|Hv Hf Hfree Hw];
    cbn [fst status].
  - subst raw. split; [auto|]. split; split;
      first [discriminate | intros [Hv _]; discriminate Hv].
  - split; [auto|]. split; split;
      first [discriminate | intros [Hv' _]; congruence].
  - split; [auto|]. split; split.
    + discriminate.
    + intros [_ [Hn _]]. congruence.
    + intros _. split; [exact Hv|]. left. congruence.
    + reflexivity.
  - rewrite insert_attempt_cases in Hins.
    split; [auto|]. split; split.
    + intros _. split; [exact Hv|]. split; [exact Hf|].
      destruct (existsb _ rows); [now left|].
      destruct (write_fails env); [now right|discriminate].
    + reflexivity.
    + discriminate.
    + intros [_ [Hn|[Hc Hw]]]; [contradiction|].
      rewrite Hc, Hw in Hins. discriminate.
  - split; [auto|]. split; split.
    + discriminate.
    + intros [_ [_ [Hc|Hw']]]; congruence.
    + intros _. split; [exact Hv|]. right. auto.
    + reflexivity.
Qed.

Lemma assigned_code_empty env :
  assigned_code env []
  = fst (generate_short_code default_length (urandom env) 0).
Proof.
  unfold assigned_code, get_unique_short_code.
  change (Z.to_nat default_max_attempts) with 10.
  rewrite attempts_S.
  now destruct (generate_short_code default_length (urandom env) 0).
Qed.

(** X15. On an empty table, when the database can write, a create
    request for a valid URL always succeeds: it stores one row, with
    primary key 1, the generator's first six-character candidate as its
    code, the normalised URL and the current time, and answers 201 with
    that row's fields. *)
Theorem first_create_succeeds V raw env :
  validate_url V raw = true ->
  write_fails env = false ->
  let row := {| id := 1;
                short_code := fst (generate_short_code 6 (urandom env) 0);
                original_url := normalize_url raw;
                created_at := utcnow env |} in
  create_short_url V raw env []
  = (JSONResponse HTTP_201_CREATED (response_of env row), [row]) /\
  String.length (short_code row) = 6.
Proof.
  intros Hv Hw. cbv zeta. split.
  - destruct (create_short_url_outcome V raw env [])
      as [Hraw|Hraw Hv'|r Hv' Hf|e Hv' Hf Hins|Hv' Hf Hfree Hw'];
      try congruence.
    + subst raw. discriminate Hv.
    + discriminate Hf.
    + rewrite insert_attempt_cases, Hw in Hins. discriminate Hins.
    + unfold new_row, db_url. cbn [new_short_code new_original_url app].
      rewrite assigned_code_empty. reflexivity.
  - cbn [short_code].
    apply (join_choices_spec (Z.to_nat 6) (urandom env) 0).
Qed.

Lemma first_create_succeeds_witness :
  create_short_url Sample.validators_url "example.com/x"
                   (Sample.env Sample.sevens) []
  = (JSONResponse 201
       {| Schemas.short_url := "http://localhost:8000/ahovCJ";
          Schemas.original_url := "https://example.com/x";
          Schemas.short_code := "ahovCJ";
          Schemas.created_at := Some 1700000000%Z |},
     [ mkURL 1 "ahovCJ" "https://example.com/x" 1700000000%Z ]).
Proof.
  apply (first_create_succeeds Sample.validators_url "example.com/x"
           (Sample.env Sample.sevens)); reflexivity.
Defined.

(** X16. No handler leaves work behind in its session.  On a freshly
    opened session [shorten_url] ends with nothing pending, whether it
    refused the URL, found it stored, committed the new row or rolled
    the insert back; [redirect_url] and [get_url_stats] return the
    session they were given. *)
Theorem handlers_leave_nothing_pending V request env rows code db :
  pending (snd (shorten_url V request env (SessionLocal rows))) = [] /\
  snd (redirect_url code db) = db /\
  snd (get_url_stats code env db) = db.
Proof.
  split; [|split].
  - unfold shorten_url.
    destruct (validate_url V (Schemas.url request)); cbn [negb];
      [|reflexivity].
    destruct (query_first _ (SessionLocal rows)); [reflexivity|].
    rewrite add_commit_refresh_cases.
    destruct (existsb _ rows); [reflexivity|].
    destruct (write_fails env); reflexivity.
  - unfold redirect_url. now destruct (query_first _ db).
  - unfold get_url_stats. now destruct (query_first _ db).
Qed.

Lemma append_empty_r s : s ++ "" = s.
Proof. induction s; simpl; congruence. Qed.

Lemma occurs_in_normalize url : occurs_in url (normalize_url url).
Proof.
  unfold normalize_url. destruct (has_scheme url); cbn [negb].
  - exists "", "". simpl. now rewrite append_empty_r.
  - exists "https://", "". now rewrite append_empty_r.
Qed.

(** X17. The body of every successful create response is built from the
    request as the repository's tests expect
    ([test_shorten_url]): its [original_url] is the normalised URL and
    contains the submitted string, its [short_url] is the base URL, then
    "/", then its [short_code], and its [created_at] is set. *)
Theorem create_response_shape V raw env rows body rows' :
  create_short_url V raw env rows
  = (JSONResponse HTTP_201_CREATED body, rows') ->
  Schemas.original_url body = normalize_url raw /\
  occurs_in raw (Schemas.original_url body) /\
  Schemas.short_url body
  = getenv_BASE_URL env ++ "/" ++ Schemas.short_code body /\
  (exists t, Schemas.created_at body = Some t) /\
  (BASE_URL env = None ->
   Schemas.short_url body
   = "http://localhost:8000/" ++ Schemas.short_code body).
Proof.
  intros Hc.
  pose proof (create_short_url_outcome V raw env rows) as Hout.
  rewrite Hc in Hout.
  assert (H : exists r, body = response_of env r
                        /\ original_url r = normalize_url raw).
  { inversion Hout; subst.
    - match goal with Hf : find _ _ = Some ?r |- _ =>
        exists r; split; [reflexivity|];
        apply find_some in Hf; destruct Hf as [_ Hurl];
        now apply has_url_true
      end.
    - eexists. split; reflexivity. }
  destruct H as [r [-> Hurl]]. cbn [response_of Schemas.original_url
    Schemas.short_url Schemas.short_code Schemas.created_at].
  rewrite Hurl. split; [reflexivity|].
  split; [apply occurs_in_normalize|]. split; [reflexivity|].
  split; [now eexists|].
  intros Hbase. unfold getenv_BASE_URL. rewrite Hbase. reflexivity.
Qed.

Lemma create_response_shape_witness :
  occurs_in "example.com/a" "https://example.com/a".
Proof.
  refine (proj1 (proj2 (create_response_shape Sample.validators_url
            "example.com/a" (Sample.env Sample.sevens) Sample.rows2
            {| Schemas.short_url := "http://localhost:8000/aaaaaa";
               Schemas.original_url := "https://example.com/a";
               Schemas.short_code := "aaaaaa";
               Schemas.created_at := Some 1700000000%Z |}
            Sample.rows2 _))).
  reflexivity.
Defined.

(* ================================================================== *)
(** ** The metrics *)
(* ================================================================== *)

Import Metrics.

Lemma endpoint_label_cases path :
  endpoint_label path = "/api/stats/{code}" \/
  endpoint_label path = "/{shortCode}" \/
  endpoint_label path = path.
Proof.
  unfold endpoint_label.
  destruct (String.prefix "/api/stats/" path); [auto|].
  destruct ((1 <? String.length path)%nat
            && isalnum (remove_slashes (tail path))
            && (List.length (split_slash path) =? 2)%nat); auto.
Qed.

(** X18. The endpoint label is stable: labelling a label changes
    nothing.  A path is labelled "/api/stats/{code}", "/{shortCode}" or
    left as it is, and the two labels are left as they are. *)
Theorem endpoint_label_idempotent path :
  endpoint_label (endpoint_label path) = endpoint_label path /\
  (endpoint_label path = "/api/stats/{code}" \/
   endpoint_label path = "/{shortCode}" \/
   endpoint_label path = path).
Proof.
  split; [|apply endpoint_label_cases].
  destruct (endpoint_label_cases path) as [H|[H|H]]; rewrite H.
  - reflexivity.
  - reflexivity.
  - exact H.
Qed.

Lemma is_alnum_not_slash c : is_alnum c = true -> Ascii.eqb c "/" = false.
Proof.
  intros H. destruct (Ascii.eqb_spec c "/") as [->|]; [discriminate H|reflexivity].
Qed.

Lemma remove_slashes_alnum s :
  all_chars is_alnum s = true -> remove_slashes s = s.
Proof.
  induction s as [|c s IH]; simpl; [reflexivity|].
  intros H. apply andb_true_iff in H. destruct H as [Hc Hs].
  now rewrite (is_alnum_not_slash c Hc), IH.
Qed.

Lemma split_slash_alnum s :
  all_chars is_alnum s = true -> split_slash s = [s].
Proof.
  induction s as [|c s IH]; simpl; [reflexivity|].
  intros H. apply andb_true_iff in H. destruct H as [Hc Hs].
  now rewrite (is_alnum_not_slash c Hc), IH.
Qed.

Lemma isalnum_all_chars s :
  isalnum s = true -> all_chars is_alnum s = true /\ 1 <= String.length s.
Proof.
  destruct s; [discriminate|]. intros H. split; [exact H|simpl; lia].
Qed.

Lemma endpoint_label_alnum code :
  isalnum code = true -> endpoint_label ("/" ++ code) = "/{shortCode}".
Proof.
  intros H. apply isalnum_all_chars in H as Hall. destruct Hall as [Hall Hlen].
  unfold endpoint_label.
  destruct (String.prefix "/api/stats/" ("/" ++ code)) eqn:Ep.
  { apply prefix_starts_with in Ep. destruct Ep as [rest Ep].
    injection Ep as ->. simpl in Hall. discriminate Hall. }
  change ("/" ++ code) with (String "/" code).
  cbn [tail String.length split_slash]. change (Ascii.eqb "/" "/") with true.
  cbv iota. rewrite (remove_slashes_alnum code Hall), H.
  rewrite (split_slash_alnum code Hall).
  destruct (String.length code); [lia|reflexivity].
Qed.

(** X19. Requests for short codes are counted under one endpoint label.
    For every code the generator can return (of at least one character)
    the middleware labels the path "/<code>" as "/{shortCode}", so the
    request is counted under (method, "/{shortCode}", status of the
    response) whichever route answers it and whatever the response is,
    and the label set does not grow with the codes.  The same holds for
    every path that is "/" followed by ASCII letters and digits only,
    "/metrics" and "/docs" among them.  A path under "/api/stats/" is
    counted under "/api/stats/{code}" whatever follows the prefix. *)
Theorem short_code_requests_share_a_label length e pos method response rest :
  (1 <= length)%Z ->
  let code := fst (generate_short_code length e pos) in
  endpoint_label ("/" ++ code) = "/{shortCode}" /\
  request_labels method ("/" ++ code) response
  = (method, "/{shortCode}", status response) /\
  request_labels method ("/api/stats/" ++ rest) response
  = (method, "/api/stats/{code}", status response) /\
  (forall path, isalnum path = true ->
                endpoint_label ("/" ++ path) = "/{shortCode}").
Proof.
  intros Hlen. cbv zeta.
  assert (Hcode : endpoint_label ("/" ++ fst (generate_short_code length e pos))
                  = "/{shortCode}").
  { apply endpoint_label_alnum. unfold generate_short_code.
    destruct (join_choices_spec (Z.to_nat length) e pos) as [Hl [Ha _]].
    destruct (fst (join_choices (Z.to_nat length) e pos)); [|exact Ha].
    simpl in Hl. lia. }
  split; [exact Hcode|]. split; [|split].
  - unfold request_labels. now rewrite Hcode.
  - unfold request_labels, endpoint_label.
    replace (String.prefix "/api/stats/" ("/api/stats/" ++ rest)) with true;
      [reflexivity|].
    symmetry. apply prefix_starts_with. now exists rest.
  - exact endpoint_label_alnum.
Qed.

Lemma short_code_requests_share_a_label_witness :
  request_labels "GET" "/ahovCJ"
                 (RedirectResponse "https://example.com/x" 302)
  = ("GET", "/{shortCode}", 302%Z) /\
  endpoint_label "/metrics" = "/{shortCode}".
Proof.
  destruct (short_code_requests_share_a_label 6 Sample.sevens 0 "GET"
              (RedirectResponse "https://example.com/x" 302) "ahovCJ")
    as [_ [Hs [_ Hall]]]; [lia|].
  split.
  - exact Hs.
  - apply (Hall "metrics"). reflexivity.
Defined.

(** One request, with the counters: the response and the table are those
    of [step]; the shorten counter moves with the table, the redirect
    counter with the 302 responses. *)
Lemma step_counted_spec V op env rows m :
  let '(response, rows', m') := step_counted V op env rows m in
  (response, rows') = step V op env rows /\
  url_shorten_requests m' + List.length rows
  = url_shorten_requests m + List.length rows' /\
  url_redirect_requests m'
  = url_redirect_requests m + count_status 302 [response].
Proof.
  destruct op as [raw|code|code]; cbn [step_counted step].
  - unfold create_short_url.
    destruct (Schemas.model_validate raw) as [request|]; [|auto].
    unfold with_db, shorten_url_counted, shorten_url.
    destruct (validate_url V (Schemas.url request)); cbn [negb];
      [|cbn; auto].
    destruct (query_first _ (SessionLocal rows)); [cbn; auto|].
    rewrite add_commit_refresh_cases.
    destruct (existsb _ rows); [cbn; auto|].
    destruct (write_fails env); [cbn; auto|].
    cbn [close table inc_shorten url_shorten_requests url_redirect_requests].
    rewrite length_app. cbn. split; [reflexivity|]. split; lia.
  - unfold redirect, with_db, redirect_url_counted, redirect_url.
    destruct (query_first _ (SessionLocal rows)); cbn; repeat split; lia.
  - destruct (stats code env rows) as [response rows'] eqn:Es.
    split; [reflexivity|].
    rewrite stats_cases in Es.
    destruct (find _ rows); inversion Es; subst; cbn; split; lia.
Qed.

(** X20. The handlers' own counters count what they are named for only
    in part.  Over any sequence of requests, [url_shorten_requests]
    grows by the number of rows inserted, so a create request answered
    from an existing row, refused or failed is not counted; and
    [url_redirect_requests] grows by the number of 302 responses, so a
    redirect request for an unknown code is not counted.  The responses
    and the table are those of the handlers without the counters. *)
Theorem counters_count V requests : forall rows m,
  let '(responses, rows', m') := serve_counted V requests rows m in
  responses = serve_responses V requests rows /\
  rows' = serve V requests rows /\
  List.length responses = List.length requests /\
  url_shorten_requests m' + List.length rows
  = url_shorten_requests m + List.length rows' /\
  url_redirect_requests m'
  = url_redirect_requests m + count_status 302 responses.
Proof.
  induction requests as [|[op env] rest IH]; intros rows m.
  - cbn. repeat split; lia.
  - cbn [serve_counted serve serve_responses].
    pose proof (step_counted_spec V op env rows m) as Hstep.
    destruct (step_counted V op env rows m) as [[response rows1] m1].
    destruct Hstep as [Hs [Hc Hr]]. rewrite <- Hs. cbn [fst snd].
    specialize (IH rows1 m1).
    destruct (serve_counted V rest rows1 m1) as [[responses rows2] m2].
    destruct IH as [Hresp [Hrows [Hlen [Hc2 Hr2]]]].
    split; [now rewrite Hresp|].
    split; [exact Hrows|]. split; [cbn; lia|]. split; [lia|].
    rewrite Hr2, Hr. unfold count_status. cbn [filter].
    destruct (Z.eqb (status response) 302); cbn [List.length]; lia.
Qed.

Example counters_count_run :
  serve_counted Sample.validators_url
    [ (Create "example.com/a", Sample.env Sample.zeros);
      (Create "https://example.com/a", Sample.env Sample.sevens);
      (Create "not-a-valid-url", Sample.env Sample.sevens);
      (Redirect "aaaaaa", Sample.env Sample.zeros);
      (Redirect "AAAAAA", Sample.env Sample.zeros);
      (Stats "aaaaaa", Sample.env Sample.zeros) ]
    [] (mkCounters 0 0)
  = ([ JSONResponse 201
         {| Schemas.short_url := "http://localhost:8000/aaaaaa";
            Schemas.original_url := "https://example.com/a";
            Schemas.short_code := "aaaaaa";
            Schemas.created_at := Some 1700000000%Z |};
       JSONResponse 201
         {| Schemas.short_url := "http://localhost:8000/aaaaaa";
            Schemas.original_url := "https://example.com/a";
            Schemas.short_code := "aaaaaa";
            Schemas.created_at := Some 1700000000%Z |};
       HTTPException 400 invalid_url_detail;
       RedirectResponse "https://example.com/a" 302;
       HTTPException 404 "Short code 'AAAAAA' not found";
       JSONResponse 200
         {| Schemas.short_url := "http://localhost:8000/aaaaaa";
            Schemas.original_url := "https://example.com/a";
            Schemas.short_code := "aaaaaa";
            Schemas.created_at := Some 1700000000%Z |} ],
     Sample.rows1,
     mkCounters 1 1).
Proof. reflexivity. Qed.

(** The row a successful create request answers from is the first one
    holding the normalised URL in the table it leaves. *)
Lemma created_row_by_url V raw env rows body rows' :
  create_short_url V raw env rows
  = (JSONResponse HTTP_201_CREATED body, rows') ->
  exists r, find (has_url (normalize_url raw)) rows' = Some r /\
            body = response_of env r.
Proof.
  intros Hc.
  pose proof (create_short_url_outcome V raw env rows) as Hout.
  rewrite Hc in Hout. inversion Hout; subst.
  - eexists. split; [eassumption|reflexivity].
  - eexists. split; [|reflexivity].
    rewrite find_app_None by assumption.
    cbn [find]. unfold has_url at 1.
    cbn [new_row original_url db_url new_original_url].
    now rewrite String.eqb_refl.
Qed.

(** X21. A URL keeps its short code.  Once a create request has
    succeeded, then after any further requests, served in any
    environments, a create request for a valid input of the same
    normalised form succeeds with the same [short_code], even when the
    database can no longer write, and stores nothing. *)
Theorem short_code_is_kept V raw1 raw2 env1 env2 requests rows body1 rows1 :
  normalize_url raw1 = normalize_url raw2 ->
  validate_url V raw2 = true ->
  create_short_url V raw1 env1 rows
  = (JSONResponse HTTP_201_CREATED body1, rows1) ->
  let later := serve V requests rows1 in
  exists body2,
    create_short_url V raw2 env2 later
    = (JSONResponse HTTP_201_CREATED body2, later) /\
    Schemas.short_code body2 = Schemas.short_code body1 /\
    Schemas.original_url body2 = Schemas.original_url body1 /\
    Schemas.created_at body2 = Schemas.created_at body1.
Proof.
  intros Hn Hv2 Hc. cbv zeta.
  destruct (created_row_by_url V raw1 env1 rows body1 rows1 Hc) as [r [Hf ->]].
  destruct (serve_appends V requests rows1) as [added [-> _]].
  exists (response_of env2 r). split; [|repeat split].
  apply create_existing; [exact Hv2|].
  rewrite <- Hn. now apply find_app_found.
Qed.

Lemma short_code_is_kept_witness :
  exists body2,
    create_short_url Sample.validators_url "https://example.com/a"
      {| BASE_URL := Some "https://sho.rt"; urandom := Sample.sevens;
         utcnow := 1800000000%Z; write_fails := true |}
      (serve Sample.validators_url
             [ (Create "example.com/b", Sample.env Sample.zeros);
               (Redirect "aaaaaa", Sample.env Sample.zeros) ]
             Sample.rows1)
    = (JSONResponse HTTP_201_CREATED body2,
       serve Sample.validators_url
             [ (Create "example.com/b", Sample.env Sample.zeros);
               (Redirect "aaaaaa", Sample.env Sample.zeros) ]
             Sample.rows1) /\
    Schemas.short_code body2 = "aaaaaa".
Proof.
  destruct (short_code_is_kept Sample.validators_url
              "example.com/a" "https://example.com/a"
              (Sample.env Sample.zeros)
              {| BASE_URL := Some "https://sho.rt"; urandom := Sample.sevens;
                 utcnow := 1800000000%Z; write_fails := true |}
              [ (Create "example.com/b", Sample.env Sample.zeros);
                (Redirect "aaaaaa", Sample.env Sample.zeros) ]
              []
              {| Schemas.short_url := "http://localhost:8000/aaaaaa";
                 Schemas.original_url := "https://example.com/a";
                 Schemas.short_code := "aaaaaa";
                 Schemas.created_at := Some 1700000000%Z |}
              Sample.rows1 eq_refl eq_refl eq_refl)
    as [body2 [H1 [H2 _]]].
  exists body2. split; [exact H1|exact H2].
Defined.
